(** * Skill-badge backend: registration, issuance and ledger client

    A shallow embedding of the TypeScript backend services and controllers
    (blockchainController, registryService, nftService, badgeNFTService,
    testRegistryService) and of the frontend metadata helper of
    sorobanSimple.ts.  Asynchronous code runs in a state and exception
    monad over a [world] that holds what the code reads from or writes to
    its environment: the clock ([Date.now()]), the random source
    ([Math.random()]), the console, the trace of ledger RPC calls, the
    object store and the badge rows of the record store.  The ledger RPC
    server is an oracle record [server]. *)

From Stdlib Require Import String Ascii List ZArith NArith Arith Lia Bool.
From Stdlib Require Import Decimal DecimalString DecimalN.
From Stdlib Require Import Permutation.
Import ListNotations.
Open Scope string_scope.
Local Set Warnings "-register-all".

(** ** JavaScript values *)

Inductive jsval : Type :=
| JUndef
| JNull
| JBool (b : bool)
| JNum (z : Z)
| JStr (s : string)
| JArr (l : list jsval)
| JObj (fields : list (string * jsval)).

(** Decimal printing of numbers, as template literals do for integers. *)
Definition str_N (n : N) : string := NilZero.string_of_uint (N.to_uint n).
Definition str_Z (z : Z) : string := NilZero.string_of_int (Z.to_int z).

(** JavaScript truthiness ([!x] is [negb (truthy x)]); NaN is not modelled. *)
Definition truthy (v : jsval) : bool :=
  match v with
  | JUndef | JNull => false
  | JBool b => b
  | JNum z => negb (Z.eqb z 0)
  | JStr s => negb (String.eqb s "")
  | JArr _ | JObj _ => true
  end.

(** [String(v)], the conversion used by template literals. *)
Fixpoint js_to_string (v : jsval) : string :=
  match v with
  | JUndef => "undefined"
  | JNull => "null"
  | JBool true => "true"
  | JBool false => "false"
  | JNum z => str_Z z
  | JStr s => s
  | JArr l =>
      let fix elems (l : list jsval) : list string :=
        match l with
        | [] => []
        | (JUndef | JNull) :: r => "" :: elems r
        | x :: r => js_to_string x :: elems r
        end in
      String.concat "," (elems l)
  | JObj _ => "[object Object]"
  end.

(** Field lookup in an object literal ([undefined] when absent). *)
Fixpoint lookup (fs : list (string * jsval)) (k : string) : jsval :=
  match fs with
  | [] => JUndef
  | (k', v) :: r => if String.eqb k k' then v else lookup r k
  end.

(** ** Results, the world and the monad *)

Inductive res (A : Type) : Type :=
| Ok (a : A)
| Throw (msg : string).
Arguments Ok {A} a.
Arguments Throw {A} msg.

(** A row of the [badges] table. *)
Record badge : Type := mkBadge {
  b_id : string;
  b_test_id : string;
  b_wallet : string;
  b_nft_token_id : option string;
  b_mint_tx_hash : option string;
  b_metadata_url : option string
}.

Record world : Type := mkWorld {
  now : N;                            (* Date.now(), in ms *)
  rands : list string;                (* Math.random().toString(36).substring(7) *)
  logs : list string;                 (* console output, newest first *)
  rpc : list string;                  (* ledger RPC calls made, newest first *)
  polls : nat;                        (* getTransaction calls made so far *)
  store : list (string * jsval);      (* object store: bucket/path -> content *)
  storage_down : bool;                (* object store unreachable *)
  badges : list badge                 (* record store: badges table *)
}.

Definition M (A : Type) : Type := world -> res A * world.

Definition ret {A} (a : A) : M A := fun w => (Ok a, w).
Definition throw {A} (msg : string) : M A := fun w => (Throw msg, w).
Definition bind {A B} (m : M A) (k : A -> M B) : M B :=
  fun w => match m w with
           | (Ok a, w') => k a w'
           | (Throw e, w') => (Throw e, w')
           end.
(** [try { m } catch (error) { h(error.message) }] *)
Definition try_catch {A} (m : M A) (h : string -> M A) : M A :=
  fun w => match m w with
           | (Ok a, w') => (Ok a, w')
           | (Throw e, w') => h e w'
           end.

Notation "'let*' x ':=' m 'in' k" := (bind m (fun x => k))
  (at level 200, x name, m at level 100, k at level 200).
Notation "m ;; k" := (bind m (fun _ => k)) (at level 100, right associativity).

Definition Date_now : M N := fun w => (Ok (now w), w).

(** One draw of [Math.random().toString(36).substring(7)]; the environment
    supplies the draws in [rands]. *)
Definition random36 : M string :=
  fun w => match rands w with
           | [] => (Ok "", w)
           | r :: rs => (Ok r, mkWorld (now w) rs (logs w) (rpc w) (polls w)
                                       (store w) (storage_down w) (badges w))
           end.

Definition log (s : string) : M unit :=
  fun w => (Ok tt, mkWorld (now w) (rands w) (s :: logs w) (rpc w) (polls w)
                           (store w) (storage_down w) (badges w)).

(** [await new Promise(resolve => setTimeout(resolve, ms))] *)
Definition sleep (ms : N) : M unit :=
  fun w => (Ok tt, mkWorld (now w + ms) (rands w) (logs w) (rpc w) (polls w)
                           (store w) (storage_down w) (badges w)).

(** A call to the ledger RPC server, recorded in the trace. *)
Definition rpc_call {A} (name : string) (r : res A) : M A :=
  fun w => (r, mkWorld (now w) (rands w) (logs w) (name :: rpc w) (polls w)
                       (store w) (storage_down w) (badges w)).

Definition set_store (s : list (string * jsval)) : M unit :=
  fun w => (Ok tt, mkWorld (now w) (rands w) (logs w) (rpc w) (polls w)
                           s (storage_down w) (badges w)).

Definition set_badges (bs : list badge) : M unit :=
  fun w => (Ok tt, mkWorld (now w) (rands w) (logs w) (rpc w) (polls w)
                           (store w) (storage_down w) bs).

Definition get_world : M world := fun w => (Ok w, w).

(** ** Number formatting *)

(** Left-pad with zeros to [width] characters. *)
Definition pad0 (width : nat) (s : string) : string :=
  append (String.concat "" (repeat "0" (width - String.length s))) s.

(** [x.toFixed(2)] for the rational [num / den], [den > 0].  The code
    computes [(score/totalScore) * 100] in floating point; the model
    computes it exactly and rounds as [toFixed] specifies (ties to the
    larger magnitude, sign printed separately). *)
Definition toFixed2 (num den : Z) : string :=
  let a := Z.abs num in
  let n := ((200 * a + den) / (2 * den))%Z in
  append (if (num <? 0)%Z then "-" else "")
         (str_Z (n / 100) ++ "." ++ pad0 2 (str_Z (n mod 100))).

(** [new Date(ms).toISOString()] for [ms >= 0] (civil calendar from the
    day count, proleptic Gregorian). *)
Definition toISOString (ms : N) : string :=
  let days := (ms / 86400000)%N in
  let r := (ms mod 86400000)%N in
  let z := (days + 719468)%N in
  let era := (z / 146097)%N in
  let doe := (z - era * 146097)%N in
  let yoe := ((doe - doe / 1460 + doe / 36524 - doe / 146096) / 365)%N in
  let doy := (doe - (365 * yoe + yoe / 4 - yoe / 100))%N in
  let mp := ((5 * doy + 2) / 153)%N in
  let d := (doy - (153 * mp + 2) / 5 + 1)%N in
  let m := if (mp <? 10)%N then (mp + 3)%N else (mp - 9)%N in
  let y := (yoe + era * 400 + (if (m <=? 2)%N then 1 else 0))%N in
  pad0 4 (str_N y) ++ "-" ++ pad0 2 (str_N m) ++ "-" ++ pad0 2 (str_N d) ++ "T" ++
  pad0 2 (str_N (r / 3600000)) ++ ":" ++ pad0 2 (str_N ((r / 60000) mod 60)) ++ ":" ++
  pad0 2 (str_N ((r / 1000) mod 60)) ++ "." ++ pad0 3 (str_N (r mod 1000)) ++ "Z".

(** ** Metadata Generator (sorobanSimple.ts, generateBadgeMetadataUri)

    sorobanSimple.ts holds two definitions of [generateBadgeMetadataUri];
    the model follows the first (lines 180-265), the one with the
    [Percentage] attribute that the backend metadata format of
    ARCHITECTURE.md shows.  [score] and [totalScore] are [number | undefined],
    here [option Z] (integer scores). *)

Definition js_opt_num (o : option Z) : string :=
  match o with Some z => str_Z z | None => "undefined" end.

Definition attr (trait : string) (value : jsval) : jsval :=
  JObj [("trait_type", JStr trait); ("value", value)].

(** The [Score] attribute value. *)
Definition score_value (score totalScore : option Z) : string :=
  match score, totalScore with
  | Some s, Some t => str_Z s ++ "/" ++ str_Z t
  | _, _ => "Passed"
  end.

(** The [Percentage] attribute value. *)
Definition percentage_value (score totalScore : option Z) : string :=
  match score, totalScore with
  | Some s, Some t => if (0 <? t)%Z then toFixed2 (s * 100) t ++ "%" else "N/A"
  | _, _ => "N/A"
  end.

Definition or_default (o : option string) (d : string) : string :=
  match o with Some s => if String.eqb s "" then d else s | None => d end.

(** The metadata object built by [generateBadgeMetadataUri]; [issued] is
    [new Date().toISOString()]. *)
Definition badge_metadata (supabaseUrl testId walletAddress : string)
    (testTitle : option string) (score totalScore : option Z) (issued : string) : jsval :=
  JObj [
    ("name", JStr (or_default testTitle "Skill Badge" ++ " - Achievement"));
    ("description", JStr ("Badge earned for completing " ++ or_default testTitle "the test"
                          ++ " with a score of " ++ js_opt_num score ++ "/" ++ js_opt_num totalScore));
    ("image", JStr (supabaseUrl ++ "/storage/v1/object/public/stellar/badge-metadata/badge-icon.png"));
    ("attributes", JArr [
       attr "Test ID" (JStr testId);
       attr "Test Title" (JStr (or_default testTitle "Unknown Test"));
       attr "Wallet Address" (JStr walletAddress);
       attr "Score" (JStr (score_value score totalScore));
       attr "Percentage" (JStr (percentage_value score totalScore));
       attr "Issued Date" (JStr issued)])].

(** The value of the attribute named [trait] in a metadata object. *)
Definition attribute (md : jsval) (trait : string) : jsval :=
  match md with
  | JObj fs =>
      match lookup fs "attributes" with
      | JArr l =>
          let fix go (l : list jsval) : jsval :=
            match l with
            | [] => JUndef
            | JObj a :: r =>
                match lookup a "trait_type" with
                | JStr t => if String.eqb t trait then lookup a "value" else go r
                | _ => go r
                end
            | _ :: r => go r
            end in go l
      | _ => JUndef
      end
  | _ => JUndef
  end.

(** ** Object Store Adapter *)

Fixpoint key_exists (k : string) (s : list (string * jsval)) : bool :=
  match s with
  | [] => false
  | (k', _) :: r => String.eqb k k' || key_exists k r
  end.

Definition remove_key (k : string) (s : list (string * jsval)) : list (string * jsval) :=
  filter (fun kv => negb (String.eqb k (fst kv))) s.

Fixpoint store_get (k : string) (s : list (string * jsval)) : option jsval :=
  match s with
  | [] => None
  | (k', v) :: r => if String.eqb k k' then Some v else store_get k r
  end.

(** Modelled from the spec: the object store (Supabase Storage) is an
    external service, not in the sources.  §4.2: [upload(key, bytes,
    contentType, overwrite)] fails with [Conflict] when [overwrite=false]
    and the key exists, the last write wins when [overwrite=true];
    network failures are [TransientStorageError].  Keys are
    [bucket/path]; [upsert] is the code's name for [overwrite].  The
    [contentType] argument and the [InvalidInput] failure of §4.2 are
    left out: the callers pass fixed types ([image/svg+xml],
    [application/json]), and which types and sizes a bucket refuses is
    bucket configuration that is not in the sources. *)
Definition storage_upload (bucket path : string) (content : jsval) (upsert : bool) : M unit :=
  let* w := get_world in
  if storage_down w then throw "TransientStorageError"
  else
    let key := bucket ++ "/" ++ path in
    if key_exists key (store w) && negb upsert then throw "Conflict"
    else set_store ((key, content) :: remove_key key (store w)).

(** Modelled from the spec: [getPublicUrl] / [publicUrl(key)] of §4.2, the
    concatenation of base, bucket and key (the shape the code also builds
    by hand in sorobanSimple.ts). *)
Definition getPublicUrl (supabaseUrl bucket path : string) : string :=
  supabaseUrl ++ "/storage/v1/object/public/" ++ bucket ++ "/" ++ path.

(** [generateBadgeMetadataUri] (sorobanSimple.ts, first definition): build
    the metadata, upload it to [stellar/badge-metadata/{testId}_{wallet}.json]
    with [upsert: true], return the public URL; the [list] check after the
    upload only logs. *)
Definition generateBadgeMetadataUri (supabaseUrl testId walletAddress : string)
    (testTitle : option string) (score totalScore : option Z) : M string :=
  try_catch
    (let fileName := testId ++ "_" ++ walletAddress ++ ".json" in
     log "Generating badge metadata...";;
     let* t := Date_now in
     let metadata := badge_metadata supabaseUrl testId walletAddress testTitle
                                    score totalScore (toISOString t) in
     log "Metadata object created";;
     try_catch (storage_upload "stellar" ("badge-metadata/" ++ fileName) metadata true)
               (fun e => log "Error uploading badge metadata";; throw e);;
     log "Metadata uploaded successfully";;
     let metadataUrl := supabaseUrl ++ "/storage/v1/object/public/stellar/badge-metadata/"
                        ++ fileName in
     log ("Metadata URL: " ++ metadataUrl);;
     let* w := get_world in
     (if negb (storage_down w) && key_exists ("stellar/badge-metadata/" ++ fileName) (store w)
      then log "Verified: File exists in bucket"
      else log "Warning: Could not verify file existence");;
     ret metadataUrl)
    (fun e => log "Error generating badge metadata";; throw e).

(** ** Ledger RPC server (oracle) *)

Inductive txstatus : Type :=
| PENDING | SUCCESS | FAILED | NOT_FOUND | ERROR | DUPLICATE | TRY_AGAIN_LATER.

Definition status_str (s : txstatus) : string :=
  match s with
  | PENDING => "PENDING" | SUCCESS => "SUCCESS" | FAILED => "FAILED"
  | NOT_FOUND => "NOT_FOUND" | ERROR => "ERROR" | DUPLICATE => "DUPLICATE"
  | TRY_AGAIN_LATER => "TRY_AGAIN_LATER"
  end.

Definition txstatus_eqb (a b : txstatus) : bool := String.eqb (status_str a) (status_str b).

(** A contract value as returned by the RPC; [scValToNative] fails on
    [ScUndecodable]. *)
Inductive scval : Type :=
| ScVal (v : jsval)
| ScUndecodable.

Inductive simresult : Type :=
| SimError (error : string)
| SimOk (result : option scval).

Record sendresp : Type := mkSend {
  send_status : txstatus;
  send_hash : string;
  send_errorResult : string
}.

Record getresp : Type := mkGet {
  get_status : txstatus;
  get_resultMetaXdr : bool;
  get_returnValue : option scval
}.

(** The RPC server.  [Throw] is a rejected promise; [srv_getTransaction k]
    answers the [k]-th [getTransaction] call of the run. *)
Record server : Type := mkServer {
  srv_getAccount : string -> res unit;
  srv_simulate : string -> string -> list string -> res simresult;  (* contract, method, args *)
  srv_send : string -> string -> list string -> res sendresp;
  srv_getTransaction : nat -> res getresp
}.

Definition scValToNative (v : scval) : M jsval :=
  match v with
  | ScVal x => ret x
  | ScUndecodable => throw "Cannot decode ScVal"
  end.

(** [new StellarSDK.Contract(id)] throws on a missing id. *)
Definition new_contract (id : option string) : M string :=
  match id with
  | Some c => ret c
  | None => throw "Invalid contract ID: undefined"
  end.

(** Property access [v.k]: throws on [null]/[undefined]. *)
Definition get_prop (v : jsval) (k : string) : M jsval :=
  match v with
  | JUndef | JNull => throw ("TypeError: Cannot read properties of null (reading '" ++ k ++ "')")
  | JObj fs => ret (lookup fs k)
  | _ => ret JUndef
  end.

Record NFTMintResult : Type := mkMint {
  m_success : bool;
  m_txHash : string;
  m_tokenId : jsval;
  m_metadataUrl : string
}.

Record TestRegistrationResult : Type := mkReg {
  r_success : bool;
  r_txHash : string;
  r_testMetadata : jsval
}.

Definition test_metadata (testId creator metadataCid : jsval) (createdAt : N) : jsval :=
  JObj [("testId", testId); ("creator", creator); ("metadataCid", metadataCid);
        ("createdAt", JNum (Z.of_N createdAt))].

Definition maxAttempts : nat := 30.

(** ** Ledger Client (badgeNFTService.ts, testRegistryService.ts) *)

Section Ledger.

Variable srv : server.
(** [process.env.BADGE_NFT_CONTRACT_ID] (no default). *)
Variable BADGE_NFT_CONTRACT : option string.
(** [process.env.TEST_REGISTRY_CONTRACT_ID || 'CC6T...'] *)
Variable TEST_REGISTRY_CONTRACT : string.

(** [await server.getTransaction(txHash)] *)
Definition get_transaction (txHash : string) : M getresp :=
  fun w => (srv_getTransaction srv (polls w),
            mkWorld (now w) (rands w) (logs w) ("getTransaction" :: rpc w) (S (polls w))
                    (store w) (storage_down w) (badges w)).

(** The confirmation loop
<<
    while (status === 'PENDING' && attempts < maxAttempts) {
      await new Promise(resolve => setTimeout(resolve, 1000));
      const statusResponse = await server.getTransaction(txHash);
      status = statusResponse.status;
      attempts++;
    }
>>
    [remaining] is [maxAttempts - attempts], so [attempts < maxAttempts]
    is [remaining <> 0]. *)
Fixpoint wait_loop (remaining : nat) (txHash : string) (status : txstatus) : M txstatus :=
  match remaining with
  | O => ret status
  | S r =>
      if txstatus_eqb status PENDING then
        sleep 1000;;
        let* statusResponse := get_transaction txHash in
        wait_loop r txHash (get_status statusResponse)
      else ret status
  end.

(** The signed path shared by [mintBadgeNFT] and [registerTestOnChain]:
    contract, account, simulate, assemble and sign (local), send, wait for
    confirmation; returns the transaction hash. *)
Definition submit_and_confirm (contractId : option string) (method : string)
    (args : list string) (signer : string) : M string :=
  let* contract := new_contract contractId in
  let* _ := rpc_call "getAccount" (srv_getAccount srv signer) in
  let* simulated := rpc_call "simulateTransaction" (srv_simulate srv contract method args) in
  match simulated with
  | SimError e => throw ("Simulation failed: " ++ e)
  | SimOk _ =>
      let* txResponse := rpc_call "sendTransaction" (srv_send srv contract method args) in
      if txstatus_eqb (send_status txResponse) ERROR then
        throw ("Transaction failed: " ++ send_errorResult txResponse)
      else
        let txHash := send_hash txResponse in
        let* status := wait_loop maxAttempts txHash (send_status txResponse) in
        if negb (txstatus_eqb status SUCCESS) then
          throw ("Transaction failed with status: " ++ status_str status)
        else ret txHash
  end.

(** The placeholder token id [`nft_${testId}_${Date.now()}`]. *)
Definition placeholder_token_id (testId : string) (t : N) : string :=
  "nft_" ++ testId ++ "_" ++ str_N t.

(** Token id extraction from the final [getTransaction] result. *)
Definition extract_token_id (testId : string) (txResult : getresp) : M jsval :=
  let* t := Date_now in
  let tokenId := JStr (placeholder_token_id testId t) in
  if txstatus_eqb (get_status txResult) SUCCESS && get_resultMetaXdr txResult then
    try_catch
      (match get_returnValue txResult with
       | Some resultValue => scValToNative resultValue
       | None => ret tokenId
       end)
      (fun _ => log "Could not parse token ID from result, using generated ID";; ret tokenId)
  else ret tokenId.

(** [mintBadgeNFT] of badgeNFTService.ts; [signerKeypair] is the public key
    of the optional signer. *)
Definition mintBadgeNFT (receiver testId metadataUri : string)
    (signerKeypair : option string) : M NFTMintResult :=
  try_catch
    (log "Minting badge NFT...";;
     match signerKeypair with
     | None =>
         log "No signer keypair provided - running in simulation mode";;
         let* t1 := Date_now in
         let* r1 := random36 in
         let* t2 := Date_now in
         let* r2 := random36 in
         ret (mkMint true ("sim_" ++ str_N t2 ++ "_" ++ r2)
                     (JStr ("nft_" ++ str_N t1 ++ "_" ++ r1)) metadataUri)
     | Some kp =>
         let* txHash := submit_and_confirm BADGE_NFT_CONTRACT "mint" [receiver; metadataUri] kp in
         let* txResult := get_transaction txHash in
         let* tokenId := extract_token_id testId txResult in
         log "Badge NFT successfully minted";;
         log ("TX Hash: " ++ txHash);;
         log ("Token ID: " ++ js_to_string tokenId);;
         ret (mkMint true txHash tokenId metadataUri)
     end)
    (fun e => log "Error minting badge NFT";; throw ("NFT minting failed: " ++ e)).

(** [registerTestOnChain] of testRegistryService.ts. *)
Definition registerTestOnChain_signed (testId creator metadataCid : string)
    (signerKeypair : option string) : M TestRegistrationResult :=
  try_catch
    (log "Registering test on-chain...";;
     match signerKeypair with
     | None =>
         log "No signer keypair provided - running in simulation mode";;
         let* t := Date_now in
         let* r := random36 in
         let* c := Date_now in
         ret (mkReg true ("sim_" ++ str_N t ++ "_" ++ r)
                    (test_metadata (JStr testId) (JStr creator) (JStr metadataCid) c))
     | Some kp =>
         let* txHash := submit_and_confirm (Some TEST_REGISTRY_CONTRACT) "register_test"
                                           [testId; creator; metadataCid] kp in
         log "Test successfully registered on-chain";;
         log ("TX Hash: " ++ txHash);;
         let* c := Date_now in
         ret (mkReg true txHash (test_metadata (JStr testId) (JStr creator) (JStr metadataCid) c))
     end)
    (fun e => log "Error registering test on-chain";;
              throw ("Blockchain registration failed: " ++ e)).

(** Account for a read-only simulation: [server.getAccount(dummy)] with a
    stand-in account when it fails. *)
Definition read_account (dummyKey : string) : M unit :=
  try_catch (rpc_call "getAccount" (srv_getAccount srv dummyKey)) (fun _ => ret tt).

(** [getTestFromChain]; [dummyKey] is the public key of [Keypair.random()]. *)
Definition getTestFromChain (dummyKey testId : string) : M jsval :=
  try_catch
    (let* contract := new_contract (Some TEST_REGISTRY_CONTRACT) in
     read_account dummyKey;;
     let* simulated := rpc_call "simulateTransaction" (srv_simulate srv contract "get_test" [testId]) in
     match simulated with
     | SimError _ | SimOk None => ret JNull
     | SimOk (Some retval) =>
         let* result := scValToNative retval in
         if truthy result then
           let* a := get_prop result "test_id" in
           let* b := get_prop result "creator" in
           let* c := get_prop result "metadata_cid" in
           let* d := get_prop result "created_at" in
           ret (JObj [("testId", a); ("creator", b); ("metadataCid", c); ("createdAt", d)])
         else ret JNull
     end)
    (fun _ => log "Error getting test from chain";; ret JNull).

Fixpoint map_items (items : list jsval) : M (list jsval) :=
  match items with
  | [] => ret []
  | item :: rest =>
      let* a := get_prop item "test_id" in
      let* b := get_prop item "creator" in
      let* c := get_prop item "metadata_cid" in
      let* d := get_prop item "created_at" in
      let* r := map_items rest in
      ret (JObj [("testId", a); ("creator", b); ("metadataCid", c); ("createdAt", d)] :: r)
  end.

(** [listTestsFromChain] *)
Definition listTestsFromChain (dummyKey : string) : M jsval :=
  try_catch
    (let* contract := new_contract (Some TEST_REGISTRY_CONTRACT) in
     read_account dummyKey;;
     let* simulated := rpc_call "simulateTransaction" (srv_simulate srv contract "list_tests" []) in
     match simulated with
     | SimError _ | SimOk None => ret (JArr [])
     | SimOk (Some retval) =>
         let* result := scValToNative retval in
         match result with
         | JArr items => let* l := map_items items in ret (JArr l)
         | _ => ret (JArr [])
         end
     end)
    (fun _ => log "Error listing tests from chain";; ret (JArr [])).

(** [getNFTMetadata] of badgeNFTService.ts. *)
Definition getNFTMetadata (dummyKey tokenId : string) : M jsval :=
  try_catch
    (let* contract := new_contract BADGE_NFT_CONTRACT in
     read_account dummyKey;;
     let* simulated := rpc_call "simulateTransaction" (srv_simulate srv contract "get_token_uri" [tokenId]) in
     match simulated with
     | SimError _ | SimOk None => ret JNull
     | SimOk (Some retval) => scValToNative retval
     end)
    (fun _ => log "Error getting NFT metadata";; ret JNull).

End Ledger.

(** ** Backend services used by the HTTP controllers *)

Section Backend.

(** [process.env.SUPABASE_URL] *)
Variable supabaseUrl : string.

(** [registerTestOnChain] of registryService.ts (the service the
    register-test controller imports): a simulated registration. *)
Definition registerTestOnChain (testId creator metadataCid : jsval) : M TestRegistrationResult :=
  try_catch
    (log "Registering test on-chain...";;
     let* t := Date_now in
     let* r := random36 in
     let txHash := "sim_" ++ str_N t ++ "_" ++ r in
     log "Test registered on-chain (simulation)";;
     log ("TX Hash: " ++ txHash);;
     let* c := Date_now in
     ret (mkReg true txHash (test_metadata testId creator metadataCid c)))
    (fun e => log "Error registering test on-chain";;
              throw ("Test registration failed: " ++ e)).

Definition as_num (v : jsval) : option Z :=
  match v with JNum z => Some z | _ => None end.

Definition as_str (v : jsval) : option string :=
  match v with JStr s => Some s | _ => None end.

(** Modelled from the spec: [generateBadgeMetadata] of storageService.ts is
    not in the sources.  §4.1 (and the format of ARCHITECTURE.md) describe
    the same document as the frontend builder [badge_metadata], stamped at
    generation time; numbers and strings of the request body are passed as
    such, other values as absent. *)
Definition generateBadgeMetadata (testId receiver testTitle score totalScore : jsval)
    (issued : string) : jsval :=
  badge_metadata supabaseUrl (js_to_string testId) (js_to_string receiver)
                 (as_str testTitle) (as_num score) (as_num totalScore) issued.

(** Modelled from the spec: [uploadBadgeMetadata] of storageService.ts is
    not in the sources.  §4.5 step 2 and §6: upload with [overwrite=true]
    at [badge-metadata/{testId}_{receiver}.json] in the shared bucket and
    return its public URL. *)
Definition uploadBadgeMetadata (testId receiver metadata : jsval) : M string :=
  let path := "badge-metadata/" ++ js_to_string testId ++ "_" ++ js_to_string receiver ++ ".json" in
  storage_upload "stellar" path metadata true;;
  ret (getPublicUrl supabaseUrl "stellar" path).

(** [mintBadgeNFT] of nftService.ts (the service the mint-nft controller
    imports): metadata upload and a simulated mint. *)
Definition mintBadgeNFT_sim (receiver testId testTitle score totalScore : jsval) : M NFTMintResult :=
  try_catch
    (log "Minting badge NFT...";;
     let* t := Date_now in
     let metadata := generateBadgeMetadata testId receiver testTitle score totalScore (toISOString t) in
     let* metadataUrl := uploadBadgeMetadata testId receiver metadata in
     let* t1 := Date_now in
     let tokenId := "nft_" ++ js_to_string testId ++ "_" ++ str_N t1 in
     let* t2 := Date_now in
     let* r := random36 in
     let txHash := "sim_" ++ str_N t2 ++ "_" ++ r in
     log "Badge NFT minted successfully (simulation)";;
     log ("Token ID: " ++ tokenId);;
     log ("TX Hash: " ++ txHash);;
     log ("Metadata URL: " ++ metadataUrl);;
     ret (mkMint true txHash (JStr tokenId) metadataUrl))
    (fun e => log "Error minting badge NFT";; throw ("NFT minting failed: " ++ e)).

End Backend.

(** ** HTTP controllers (blockchainController.ts) *)

(** An Express response: status code and JSON body. *)
Record response : Type := mkResp {
  status : nat;
  body : jsval
}.

Definition reg_to_json (r : TestRegistrationResult) : jsval :=
  JObj [("success", JBool (r_success r)); ("txHash", JStr (r_txHash r));
        ("testMetadata", r_testMetadata r)].

Definition mint_to_json (r : NFTMintResult) : jsval :=
  JObj [("success", JBool (m_success r)); ("txHash", JStr (m_txHash r));
        ("tokenId", m_tokenId r); ("metadataUrl", JStr (m_metadataUrl r))].

(** [POST /api/blockchain/register-test]; [req] is [req.body]. *)
Definition registerTest (req : list (string * jsval)) : M response :=
  try_catch
    (let testId := lookup req "testId" in
     let creator := lookup req "creator" in
     let metadataCid := lookup req "metadataCid" in
     if negb (truthy testId) || negb (truthy creator) || negb (truthy metadataCid) then
       ret (mkResp 400 (JObj [("error", JStr "Missing required fields: testId, creator, metadataCid")]))
     else
       let* result := registerTestOnChain testId creator metadataCid in
       ret (mkResp 200 (JObj [("success", JBool true);
                              ("message", JStr "Test registered on blockchain");
                              ("data", reg_to_json result)])))
    (fun e => log "Blockchain registration error";;
              ret (mkResp 500 (JObj [("error", JStr "Failed to register test on blockchain");
                                     ("details", JStr e)]))).

(** [POST /api/blockchain/mint-nft]. *)
Definition mintNFT (supabaseUrl : string) (req : list (string * jsval)) : M response :=
  try_catch
    (let receiver := lookup req "receiver" in
     let testId := lookup req "testId" in
     let testTitle := lookup req "testTitle" in
     let score := lookup req "score" in
     let totalScore := lookup req "totalScore" in
     if negb (truthy receiver) || negb (truthy testId) then
       ret (mkResp 400 (JObj [("error", JStr "Missing required fields: receiver, testId")]))
     else
       let* result := mintBadgeNFT_sim supabaseUrl receiver testId testTitle score totalScore in
       ret (mkResp 200 (JObj [("success", JBool true);
                              ("message", JStr "NFT badge minted successfully");
                              ("data", mint_to_json result)])))
    (fun e => log "NFT minting error";;
              ret (mkResp 500 (JObj [("error", JStr "Failed to mint NFT badge");
                                     ("details", JStr e)]))).

(** The record-store write of [retryMintNFT] (BadgesTab):
    [supabase.from('badges').update({...}).eq('id', badge.id)]. *)
Definition update_badge_by_id (id tokenId txHash url : string) (bs : list badge) : list badge :=
  map (fun b => if String.eqb (b_id b) id
                then mkBadge (b_id b) (b_test_id b) (b_wallet b) (Some tokenId) (Some txHash) (Some url)
                else b) bs.

(** ** Utilities and simulated contract calls of sorobanSimple.ts *)

(** [s.substring(a, b)]: both indices clamped to [0, length], swapped
    when [a > b]. *)
Definition js_substring (s : string) (a b : nat) : string :=
  let n := String.length s in
  let a' := Nat.min a n in
  let b' := Nat.min b n in
  String.substring (Nat.min a' b') (Nat.max a' b' - Nat.min a' b') s.

(** [formatContractAddress] *)
Definition formatContractAddress (address : string) : string :=
  if String.eqb address "" || Nat.ltb (String.length address) 10 then address
  else js_substring address 0 6 ++ "..."
       ++ js_substring address (String.length address - 4) (String.length address).

Section Soroban.

(** [SOROBAN_CONFIG.NETWORK] *)
Variable NETWORK : string.
(** [SOROBAN_CONFIG.TEST_REGISTRY_ID] and [SOROBAN_CONFIG.BADGE_NFT_ID], the
    environment variables (possibly undefined). *)
Variable TEST_REGISTRY_ID : option string.
Variable BADGE_NFT_ID : option string.

(** An optional string in a template literal. *)
Definition env_str (o : option string) : string :=
  match o with Some v => v | None => "undefined" end.

(** [getExplorerUrl] *)
Definition getExplorerUrl (txHash : string) : string :=
  "https://stellar.expert/explorer/" ++ NETWORK ++ "/tx/" ++ txHash.

(** [getContractExplorerUrl] *)
Definition getContractExplorerUrl (contractId : string) : string :=
  "https://stellar.expert/explorer/" ++ NETWORK ++ "/contract/" ++ contractId.

(** [registerTestOnChain] of sorobanSimple.ts: a simulated registration. *)
Definition registerTestOnChain_simple (testId creator metadataCid : string) : M (bool * string) :=
  try_catch
    (log "Registering test on-chain...";;
     let* t := Date_now in
     let* r := random36 in
     let txHash := "sim_" ++ str_N t ++ "_" ++ r in
     log "Test registered on-chain (simulated)";;
     log ("Contract: " ++ env_str TEST_REGISTRY_ID);;
     log ("View on Explorer: " ++ getExplorerUrl txHash);;
     ret (true, txHash))
    (fun e => log "Error registering test on-chain";; throw e).

(** [mintBadgeNFT] of sorobanSimple.ts: a simulated mint returning
    [(success, txHash, tokenId)]. *)
Definition mintBadgeNFT_simple (receiver testId metadataUri : string)
    : M (bool * string * string) :=
  try_catch
    (log "Minting badge NFT...";;
     let* t1 := Date_now in
     let* r1 := random36 in
     let txHash := "sim_" ++ str_N t1 ++ "_" ++ r1 in
     let* t2 := Date_now in
     let* r2 := random36 in
     let tokenId := "NFT_" ++ str_N t2 ++ "_" ++ r2 in
     log "Badge NFT minted (simulated)";;
     log ("Token ID: " ++ tokenId);;
     log ("Contract: " ++ env_str BADGE_NFT_ID);;
     log ("View on Explorer: " ++ getExplorerUrl txHash);;
     ret (true, txHash, tokenId))
    (fun e => log "Error minting badge NFT";; throw e).

End Soroban.

(** [s.includes(sub)] *)
Fixpoint includes (s sub : string) : bool :=
  String.prefix sub s || match s with EmptyString => false | String _ r => includes r sub end.

(** The [Score] attribute of the second [generateBadgeMetadataUri]:
    [score ? `${score}/${totalScore}` : 'Passed'] ([0] is falsy). *)
Definition score_value_v2 (score totalScore : option Z) : string :=
  match score with
  | Some s => if (s =? 0)%Z then "Passed" else str_Z s ++ "/" ++ js_opt_num totalScore
  | None => "Passed"
  end.

(** The metadata object of the second [generateBadgeMetadataUri]. *)
Definition badge_metadata_v2 (supabaseUrl testId walletAddress : string)
    (testTitle : option string) (score totalScore : option Z) (issued : string) : jsval :=
  JObj [
    ("name", JStr (or_default testTitle "Skill Badge" ++ " - Achievement"));
    ("description", JStr ("Badge earned for completing " ++ or_default testTitle "the test"));
    ("image", JStr (supabaseUrl ++ "/storage/v1/object/public/badge-metadata/badge-icon.png"));
    ("attributes", JArr [
       attr "Test ID" (JStr testId);
       attr "Wallet Address" (JStr walletAddress);
       attr "Score" (JStr (score_value_v2 score totalScore));
       attr "Issued Date" (JStr issued)])].

(** [generateBadgeMetadataUri] (sorobanSimple.ts, second definition,
    lines 466-524): the upload error is returned, not thrown, and only
    logged; the catch-all returns the same URL as a fallback. *)
Definition generateBadgeMetadataUri_v2 (supabaseUrl testId walletAddress : string)
    (testTitle : option string) (score totalScore : option Z) : M string :=
  try_catch
    (let fileName := testId ++ "_" ++ walletAddress ++ ".json" in
     let* t := Date_now in
     let metadata := badge_metadata_v2 supabaseUrl testId walletAddress testTitle
                                       score totalScore (toISOString t) in
     let* uploadError := try_catch (storage_upload "badge-metadata" fileName metadata true;;
                                    ret None)
                                   (fun e => ret (Some e)) in
     (match uploadError with
      | Some e => if negb (includes e "already exists")
                  then log "Error uploading badge metadata" else ret tt
      | None => ret tt
      end);;
     ret (supabaseUrl ++ "/storage/v1/object/public/badge-metadata/" ++ fileName))
    (fun _ => log "Error generating badge metadata";;
              ret (supabaseUrl ++ "/storage/v1/object/public/badge-metadata/"
                   ++ testId ++ "_" ++ walletAddress ++ ".json")).

(** ** Badge list of the dashboard (BadgesTab, part_000) *)

(** A row of [tests], the fields the grouping reads. *)
Record test_row : Type := mkTest {
  t_id : string;
  t_title : option string;
  t_company : option string
}.

(** A row of [attempts], the fields the grouping reads. *)
Record attempt_row : Type := mkAttempt {
  a_id : string;
  a_test_id : string
}.

(** [GroupedBadges]; a badge or attempt is kept with its test
    ([{ ...badge, test }]). *)
Record grouped : Type := mkGroup {
  g_company : string;
  g_badges : list (badge * option test_row);
  g_practiceAttempts : list (attempt_row * option test_row)
}.

(** [testsData?.find(t => t.id === id)] *)
Fixpoint find_test (ts : list test_row) (id : string) : option test_row :=
  match ts with
  | [] => None
  | t :: r => if String.eqb (t_id t) id then Some t else find_test r id
  end.

(** [x.test?.company || 'Independent'] *)
Definition company_of (t : option test_row) : string :=
  match t with
  | Some t => or_default (t_company t) "Independent"
  | None => "Independent"
  end.

(** [if (!grouped.has(company)) grouped.set(company, {...});
     grouped.get(company)!.badges.push(badge)]: a [Map] keeps its keys in
    insertion order. *)
Fixpoint add_badge (company : string) (b : badge * option test_row) (gs : list grouped)
    : list grouped :=
  match gs with
  | [] => [mkGroup company [b] []]
  | g :: r => if String.eqb (g_company g) company
              then mkGroup (g_company g) (g_badges g ++ [b]) (g_practiceAttempts g) :: r
              else g :: add_badge company b r
  end.

(** The same for [practiceAttempts]. *)
Fixpoint add_attempt (company : string) (a : attempt_row * option test_row) (gs : list grouped)
    : list grouped :=
  match gs with
  | [] => [mkGroup company [] [a]]
  | g :: r => if String.eqb (g_company g) company
              then mkGroup (g_company g) (g_badges g) (g_practiceAttempts g ++ [a]) :: r
              else g :: add_attempt company a r
  end.

(** [new Set(ids)] as a list: first occurrences, in order. *)
Fixpoint dedup_first (seen : list string) (l : list string) : list string :=
  match l with
  | [] => []
  | x :: r => if existsb (String.eqb x) seen then dedup_first seen r
              else x :: dedup_first (x :: seen) r
  end.

Section Grouping.

(** [a.company.localeCompare(b.company)] (locale dependent). *)
Variable localeCompare : string -> string -> Z.

(** [Array.prototype.sort] with the comparator [(a, b) =>
    a.company.localeCompare(b.company)], a stable sort: for a consistent
    comparator its result is the stable insertion sort below. *)
Fixpoint insert_group (g : grouped) (l : list grouped) : list grouped :=
  match l with
  | [] => [g]
  | h :: r => if (localeCompare (g_company g) (g_company h) <? 0)%Z then g :: h :: r
              else h :: insert_group g r
  end.

Definition sort_groups (l : list grouped) : list grouped :=
  fold_left (fun acc g => insert_group g acc) l [].

(** The grouping step of [fetchUserBadgesAndAttempts], from the rows of
    the two queries ([badgesData], [attemptsData], in the order the
    queries return them) and the [tests] table that
    [.in('id', allTestIds)] reads. *)
Definition group_badges (tests : list test_row) (badgesData : list badge)
    (attemptsData : list attempt_row) : list grouped :=
  let allTestIds := dedup_first [] (map b_test_id badgesData ++ map a_test_id attemptsData) in
  if Nat.ltb 0 (length allTestIds) then
    let testsData := filter (fun t => existsb (String.eqb (t_id t)) allTestIds) tests in
    let badgesWithTests := map (fun b => (b, find_test testsData (b_test_id b))) badgesData in
    let practiceAttemptsWithTests :=
      map (fun a => (a, find_test testsData (a_test_id a))) attemptsData in
    let g1 := fold_left (fun gs bt => add_badge (company_of (snd bt)) bt gs) badgesWithTests [] in
    let g2 := fold_left (fun gs at' => add_attempt (company_of (snd at')) at' gs)
                        practiceAttemptsWithTests g1 in
    sort_groups g2
  else [].

End Grouping.

(** [groupedBadges.reduce((sum, group) => sum + group.badges.length, 0)] *)
Definition totalBadges (gs : list grouped) : nat :=
  fold_left (fun sum g => sum + length (g_badges g)) gs 0.

(** [groupedBadges.reduce((sum, group) => sum + group.practiceAttempts.length, 0)] *)
Definition totalPractice (gs : list grouped) : nat :=
  fold_left (fun sum g => sum + length (g_practiceAttempts g)) gs 0.

(** ** Custom badges of the profile page (ProfileTab, part_001) *)

(** A row of [custom_badges]. *)
Record custom_badge : Type := mkCustom {
  cb_id : string;
  cb_user_id : string;
  cb_badge_name : string;
  cb_svg_url : string
}.

(** A selected [File]: its MIME type, its size in bytes and its
    contents. *)
Record file_obj : Type := mkFile {
  f_type : string;
  f_size : N;
  f_content : jsval
}.

(** What the profile handlers act on: the world (clock, console, object
    store); the [custom_badges] table, its rows in insertion order, the
    database drawing row ids from [p_next_id] and failing while
    [p_db_down]; and the component state the handlers set ([badgeName],
    [svgFile], [error], [success], [customBadges]).  The [loading] and
    [uploading] flags, reset in every [finally], are left out. *)
Record profile : Type := mkProfile {
  p_world : world;
  p_table : list custom_badge;
  p_next_id : N;
  p_db_down : bool;
  p_badgeName : string;
  p_svgFile : option file_obj;
  p_error : option string;
  p_success : option string;
  p_customBadges : list custom_badge
}.

Definition PM (A : Type) : Type := profile -> res A * profile.

Definition pret {A} (a : A) : PM A := fun s => (Ok a, s).
Definition pthrow {A} (e : string) : PM A := fun s => (Throw e, s).
Definition pbind {A B} (m : PM A) (k : A -> PM B) : PM B :=
  fun s => match m s with
           | (Ok a, s') => k a s'
           | (Throw e, s') => (Throw e, s')
           end.
Definition ptry {A} (m : PM A) (h : string -> PM A) : PM A :=
  fun s => match m s with
           | (Ok a, s') => (Ok a, s')
           | (Throw e, s') => h e s'
           end.
Definition pget : PM profile := fun s => (Ok s, s).

Notation "'let%' x ':=' m 'in' k" := (pbind m (fun x => k))
  (at level 200, x name, m at level 100, k at level 200).
Notation "m ;;; k" := (pbind m (fun _ => k)) (at level 100, right associativity).

(** A world action inside a handler. *)
Definition lift {A} (m : M A) : PM A :=
  fun s => let (r, w') := m (p_world s) in
           (r, mkProfile w' (p_table s) (p_next_id s) (p_db_down s) (p_badgeName s)
                         (p_svgFile s) (p_error s) (p_success s) (p_customBadges s)).

Definition setError (e : option string) : PM unit :=
  fun s => (Ok tt, mkProfile (p_world s) (p_table s) (p_next_id s) (p_db_down s) (p_badgeName s)
                             (p_svgFile s) e (p_success s) (p_customBadges s)).
Definition setSuccess (m : option string) : PM unit :=
  fun s => (Ok tt, mkProfile (p_world s) (p_table s) (p_next_id s) (p_db_down s) (p_badgeName s)
                             (p_svgFile s) (p_error s) m (p_customBadges s)).
Definition setBadgeName (n : string) : PM unit :=
  fun s => (Ok tt, mkProfile (p_world s) (p_table s) (p_next_id s) (p_db_down s) n
                             (p_svgFile s) (p_error s) (p_success s) (p_customBadges s)).
Definition setSvgFile (f : option file_obj) : PM unit :=
  fun s => (Ok tt, mkProfile (p_world s) (p_table s) (p_next_id s) (p_db_down s) (p_badgeName s)
                             f (p_error s) (p_success s) (p_customBadges s)).
Definition setCustomBadges (l : list custom_badge) : PM unit :=
  fun s => (Ok tt, mkProfile (p_world s) (p_table s) (p_next_id s) (p_db_down s) (p_badgeName s)
                             (p_svgFile s) (p_error s) (p_success s) l).

(** [supabase.from('custom_badges').insert({user_id, badge_name, svg_url})]
    whose [error] the code throws. *)
Definition db_insert (user_id badge_name svg_url : string) : PM unit :=
  fun s => if p_db_down s then (Throw "DatabaseError", s)
           else (Ok tt, mkProfile (p_world s)
                          (p_table s ++ [mkCustom (str_N (p_next_id s)) user_id badge_name svg_url])
                          (N.succ (p_next_id s)) (p_db_down s) (p_badgeName s)
                          (p_svgFile s) (p_error s) (p_success s) (p_customBadges s)).

(** [supabase.from('custom_badges').delete().eq('id', id)] *)
Definition db_delete (id : string) : PM unit :=
  fun s => if p_db_down s then (Throw "DatabaseError", s)
           else (Ok tt, mkProfile (p_world s)
                          (filter (fun r => negb (String.eqb (cb_id r) id)) (p_table s))
                          (p_next_id s) (p_db_down s) (p_badgeName s)
                          (p_svgFile s) (p_error s) (p_success s) (p_customBadges s)).

(** [select('*').eq('user_id', userId).order('created_at', {ascending:
    false})]: [created_at] is the insertion time, newest first. *)
Definition db_select_user (userId : string) : PM (list custom_badge) :=
  fun s => if p_db_down s then (Throw "DatabaseError", s)
           else (Ok (List.rev (filter (fun r => String.eqb (cb_user_id r) userId) (p_table s))), s).

(** Object store [remove(paths)]: the result, error included, is
    returned, not thrown. *)
Definition storage_remove (bucket : string) (paths : list string) : M (option string) :=
  let* w := get_world in
  if storage_down w then ret (Some "TransientStorageError")
  else set_store (fold_right (fun p st => remove_key (bucket ++ "/" ++ p) st) (store w) paths);;
       ret None.

(** JavaScript white space in the ASCII range, as [trim] removes it. *)
Definition js_space (c : ascii) : bool :=
  match nat_of_ascii c with
  | 9 | 10 | 11 | 12 | 13 | 32 => true
  | _ => false
  end.

Fixpoint trim_start (s : string) : string :=
  match s with
  | EmptyString => EmptyString
  | String c r => if js_space c then trim_start r else s
  end.

Fixpoint trim_end (s : string) : string :=
  match s with
  | EmptyString => EmptyString
  | String c r => let r' := trim_end r in
                  if js_space c && String.eqb r' "" then "" else String c r'
  end.

(** [s.trim()] *)
Definition trim (s : string) : string := trim_end (trim_start s).

(** [s.split(sep)] for a non-empty [sep]: [skip] counts the characters of
    a separator still to pass, [cur] is the piece read so far. *)
Fixpoint split_go (sep s : string) (skip : nat) (cur : string) : list string :=
  match s with
  | EmptyString => [cur]
  | String c r =>
      match skip with
      | S k => split_go sep r k cur
      | O => if String.prefix sep s then cur :: split_go sep r (String.length sep - 1) ""
             else split_go sep r 0 (cur ++ String c "")
      end
  end.

Definition js_split (s sep : string) : list string := split_go sep s 0 "".

(** [fetchCustomBadges] *)
Definition fetchCustomBadges (userId : string) : PM unit :=
  ptry (setError None;;;
        lift (log "Fetching badges for user");;;
        let% data := db_select_user userId in
        setCustomBadges data)
       (fun e => lift (log "Error fetching custom badges");;; setError (Some e)).

(** [handleFileChange] for the first selected file; the preview that a
    [FileReader] sets later is left out. *)
Definition handleFileChange (file : option file_obj) : PM unit :=
  match file with
  | None => pret tt
  | Some f =>
      if negb (includes (f_type f) "svg") then setError (Some "Please upload an SVG file")
      else if (1024 * 1024 <? f_size f)%N then setError (Some "File size must be less than 1MB")
      else setSvgFile (Some f);;; setError None
  end.

(** [handleUploadBadge]; [supabaseUrl] is the project URL the client's
    [getPublicUrl] builds on.  The success message ends in an emoji,
    left out here. *)
Definition handleUploadBadge (supabaseUrl userId : string) : PM unit :=
  let% s := pget in
  if String.eqb (trim (p_badgeName s)) "" then setError (Some "Please enter a badge name")
  else
    match p_svgFile s with
    | None => setError (Some "Please select an SVG file")
    | Some svgFile =>
        ptry (setError None;;;
              setSuccess None;;;
              lift (log "Uploading badge for user");;;
              let% t := lift Date_now in
              let fileName := userId ++ "_" ++ str_N t ++ "." ++ "svg" in
              let filePath := "badges/" ++ fileName in
              let% uploadError :=
                lift (try_catch (storage_upload "stellar" filePath (f_content svgFile) false;; ret None)
                                (fun e => ret (Some e))) in
              match uploadError with
              | Some e => lift (log "Upload error");;; pthrow e
              | None =>
                  let publicUrl := getPublicUrl supabaseUrl "stellar" filePath in
                  db_insert userId (trim (p_badgeName s)) publicUrl;;;
                  setSuccess (Some "Badge created successfully!");;;
                  setBadgeName "";;;
                  setSvgFile None;;;
                  fetchCustomBadges userId
              end)
             (fun e => lift (log "Error uploading badge");;;
                       setError (Some (if String.eqb e "" then "Failed to upload badge" else e)))
    end.

(** [handleDeleteBadge]; [confirmed] is the answer to the [confirm]
    dialog. *)
Definition handleDeleteBadge (userId badgeId svgUrl : string) (confirmed : bool) : PM unit :=
  if negb confirmed then pret tt
  else
    ptry (let urlParts := js_split svgUrl "/stellar/" in
          (if Nat.ltb 1 (length urlParts)
           then let% _ := lift (storage_remove "stellar" [nth 1 urlParts ""]) in pret tt
           else pret tt);;;
          db_delete badgeId;;;
          setSuccess (Some "Badge deleted successfully");;;
          fetchCustomBadges userId)
         (fun e => lift (log "Error deleting badge");;; setError (Some e)).

(** * Properties *)

(** ** Frame conditions: what a computation leaves unchanged *)

Section Keeps.

Variable P : world -> world -> Prop.
Hypothesis P_refl : forall w, P w w.
Hypothesis P_trans : forall w1 w2 w3, P w1 w2 -> P w2 w3 -> P w1 w3.

(** [m] relates its initial and final worlds by [P], whatever it returns. *)
Definition keeps {A} (m : M A) : Prop := forall w, P w (snd (m w)).

Lemma keeps_ret {A} (a : A) : keeps (ret a).
Proof using P_refl P_trans. intro w; apply P_refl. Qed.

Lemma keeps_throw {A} (e : string) : keeps (@throw A e).
Proof using P_refl P_trans. intro w; apply P_refl. Qed.

Lemma keeps_get_world : keeps get_world.
Proof using P_refl P_trans. intro w; apply P_refl. Qed.

Lemma keeps_Date_now : keeps Date_now.
Proof using P_refl P_trans. intro w; apply P_refl. Qed.

Lemma keeps_bind {A B} (m : M A) (k : A -> M B) :
  keeps m -> (forall a, keeps (k a)) -> keeps (bind m k).
Proof using P_refl P_trans.
  intros Hm Hk w; unfold bind; specialize (Hm w).
  destruct (m w) as [[a|e] w1]; simpl in *; [|exact Hm].
  eapply P_trans; [exact Hm | apply Hk].
Qed.

Lemma keeps_try_catch {A} (m : M A) (h : string -> M A) :
  keeps m -> (forall e, keeps (h e)) -> keeps (try_catch m h).
Proof using P_refl P_trans.
  intros Hm Hh w; unfold try_catch; specialize (Hm w).
  destruct (m w) as [[a|e] w1]; simpl in *; [exact Hm|].
  eapply P_trans; [exact Hm | apply Hh].
Qed.

End Keeps.

Create HintDb keeps.
#[export] Hint Resolve keeps_ret keeps_throw keeps_get_world keeps_Date_now : keeps.

Ltac keeps_tac :=
  repeat match goal with
    | |- keeps _ (bind _ _) => apply keeps_bind; [assumption | assumption | | intro]
    | |- keeps _ (try_catch _ _) => apply keeps_try_catch; [assumption | assumption | | intro]
    | |- keeps _ (if ?b then _ else _) => destruct b
    | |- keeps _ (match ?x with _ => _ end) => destruct x
    | |- keeps _ _ => solve [auto with keeps]
    end.

(** Worlds that agree on the ledger RPC trace. *)
Definition same_rpc (w w' : world) : Prop := rpc w' = rpc w.
(** Worlds that agree on the record store and the object store. *)
Definition same_records (w w' : world) : Prop := badges w' = badges w.
Definition same_stores (w w' : world) : Prop := badges w' = badges w /\ store w' = store w.

Lemma same_rpc_refl w : same_rpc w w.
Proof. reflexivity. Qed.
Lemma same_rpc_trans w1 w2 w3 : same_rpc w1 w2 -> same_rpc w2 w3 -> same_rpc w1 w3.
Proof. unfold same_rpc; congruence. Qed.
Lemma same_records_refl w : same_records w w.
Proof. reflexivity. Qed.
Lemma same_records_trans w1 w2 w3 :
  same_records w1 w2 -> same_records w2 w3 -> same_records w1 w3.
Proof. unfold same_records; congruence. Qed.
Lemma same_stores_refl w : same_stores w w.
Proof. split; reflexivity. Qed.
Lemma same_stores_trans w1 w2 w3 :
  same_stores w1 w2 -> same_stores w2 w3 -> same_stores w1 w3.
Proof. unfold same_stores; intros [] []; split; congruence. Qed.

Lemma log_rpc s : keeps same_rpc (log s).
Proof. intro w; reflexivity. Qed.
Lemma random36_rpc : keeps same_rpc random36.
Proof. intro w; unfold random36; destruct (rands w); reflexivity. Qed.
Lemma set_store_rpc s : keeps same_rpc (set_store s).
Proof. intro w; reflexivity. Qed.
Lemma log_records s : keeps same_records (log s).
Proof. intro w; reflexivity. Qed.
Lemma random36_records : keeps same_records random36.
Proof. intro w; unfold random36; destruct (rands w); reflexivity. Qed.
Lemma set_store_records s : keeps same_records (set_store s).
Proof. intro w; reflexivity. Qed.
Lemma log_stores s : keeps same_stores (log s).
Proof. intro w; split; reflexivity. Qed.
Lemma random36_stores : keeps same_stores random36.
Proof. intro w; unfold random36; destruct (rands w); split; reflexivity. Qed.

#[export] Hint Resolve log_rpc random36_rpc set_store_rpc log_records random36_records
  set_store_records log_stores random36_stores
  same_rpc_refl same_rpc_trans same_records_refl same_records_trans
  same_stores_refl same_stores_trans : keeps.

Lemma storage_upload_rpc b p c u : keeps same_rpc (storage_upload b p c u).
Proof.
  unfold storage_upload.
  pose proof same_rpc_refl; pose proof same_rpc_trans. keeps_tac.
Qed.

Lemma storage_upload_records b p c u : keeps same_records (storage_upload b p c u).
Proof.
  unfold storage_upload.
  pose proof same_records_refl; pose proof same_records_trans. keeps_tac.
Qed.

#[export] Hint Resolve storage_upload_rpc storage_upload_records : keeps.

(** Run a computation on a world given field by field. *)
Ltac run_world w :=
  destruct w; cbv beta iota zeta delta [try_catch bind log Date_now storage_upload
      get_world set_store set_badges ret throw random36 sleep rpc_call negb
      storage_down store now rands logs rpc polls badges] in *.

(** ** Metadata Generator *)

(** C5 (claim as stated fails here): with a score but no total, the
    [Score] attribute is ["Passed"], not of the form ["8/..."]. *)
Lemma metadata_score_without_total :
  attribute (badge_metadata "https://x" "t" "G" None (Some 8%Z) None "d") "Score" = JStr "Passed"
  /\ ~ (exists rest, attribute (badge_metadata "https://x" "t" "G" None (Some 8%Z) None "d") "Score"
                    = JStr ("8/" ++ rest)).
Proof.
  split; [reflexivity|].
  intros [rest H]; vm_compute in H; discriminate H.
Qed.

(** C5 (amended): the [Percentage] attribute is ["80.00%"] for 8 out of
    10 and ["N/A"] when the total is 0 or absent (or the score absent);
    the [Score] attribute is ["score/total"] when both are given and
    ["Passed"] when either is absent. *)
Theorem metadata_score_percentage :
  forall (url testId wallet issued : string) (title : option string),
    attribute (badge_metadata url testId wallet title (Some 8%Z) (Some 10%Z) issued) "Percentage"
      = JStr "80.00%"
    /\ (forall s, attribute (badge_metadata url testId wallet title s (Some 0%Z) issued) "Percentage"
                  = JStr "N/A")
    /\ (forall s, attribute (badge_metadata url testId wallet title s None issued) "Percentage"
                  = JStr "N/A")
    /\ (forall t, attribute (badge_metadata url testId wallet title None t issued) "Percentage"
                  = JStr "N/A")
    /\ (forall t, attribute (badge_metadata url testId wallet title None t issued) "Score"
                  = JStr "Passed")
    /\ (forall s, attribute (badge_metadata url testId wallet title s None issued) "Score"
                  = JStr "Passed")
    /\ (forall s t, attribute (badge_metadata url testId wallet title (Some s) (Some t) issued) "Score"
                    = JStr (str_Z s ++ "/" ++ str_Z t)).
Proof.
  intros url testId wallet issued title.
  repeat split; intros; try destruct s; reflexivity.
Qed.

(** ** Object Store Adapter *)

Lemma key_exists_remove k s : key_exists k (remove_key k s) = false.
Proof.
  induction s as [|[k' v] s IH]; simpl; [reflexivity|].
  destruct (String.eqb k k') eqn:E; simpl; [exact IH|].
  rewrite E; exact IH.
Qed.

(** ** Read-only ledger queries *)

Lemma try_catch_log_ret {A} (m : M A) (s : string) (v : A) (w : world) :
  exists a w', try_catch m (fun _ => log s;; ret v) w = (Ok a, w').
Proof.
  unfold try_catch. destruct (m w) as [[a|e] w1]; eexists _, _; reflexivity.
Qed.

Ltac read_query_tac Hsim :=
  intros Hsim;
  unfold getTestFromChain, listTestsFromChain, getNFTMetadata, read_account, new_contract,
    scValToNative;
  match goal with |- context [?w] => (is_var w; lazymatch type of w with world => run_world w end) end;
  rewrite ?Hsim; destruct (srv_getAccount _ _); reflexivity.

(** C10: [getTestFromChain], [listTestsFromChain] and [getNFTMetadata]
    never reject, whatever the server does; they give [null] (the empty
    list for [listTestsFromChain]) when the simulation errors, has no
    result, fails to decode, or the RPC call rejects; [getNFTMetadata] also
    when the contract id is not configured. *)
Theorem read_queries_total :
  forall (srv : server) (badgeContract : option string) (registry dummyKey testId tokenId : string)
         (w : world),
    (exists v w', getTestFromChain srv registry dummyKey testId w = (Ok v, w'))
    /\ (exists v w', listTestsFromChain srv registry dummyKey w = (Ok v, w'))
    /\ (exists v w', getNFTMetadata srv badgeContract dummyKey tokenId w = (Ok v, w'))
    /\ (forall r, (exists e, r = Throw e) \/ (exists e, r = Ok (SimError e))
                  \/ r = Ok (SimOk None) \/ r = Ok (SimOk (Some ScUndecodable)) ->
        (srv_simulate srv registry "get_test" [testId] = r ->
         fst (getTestFromChain srv registry dummyKey testId w) = Ok JNull)
        /\ (srv_simulate srv registry "list_tests" [] = r ->
            fst (listTestsFromChain srv registry dummyKey w) = Ok (JArr []))
        /\ (forall c, badgeContract = Some c -> srv_simulate srv c "get_token_uri" [tokenId] = r ->
            fst (getNFTMetadata srv badgeContract dummyKey tokenId w) = Ok JNull))
    /\ (badgeContract = None -> fst (getNFTMetadata srv badgeContract dummyKey tokenId w) = Ok JNull).
Proof.
  intros srv bc registry key testId tokenId w.
  split; [apply try_catch_log_ret|].
  split; [apply try_catch_log_ret|].
  split; [apply try_catch_log_ret|].
  split.
  - intros r Hr.
    destruct Hr as [[e ->]|[[e ->]|[->| ->]]];
      (split; [|split]; [read_query_tac Hsim | read_query_tac Hsim
                        | intros c -> ; read_query_tac Hsim]).
  - intros ->. reflexivity.
Qed.

(** ** Confirmation polling *)

Lemma txstatus_eqb_pending st : txstatus_eqb st PENDING = true <-> st = PENDING.
Proof.
  destruct st; split; intro H; try reflexivity; try discriminate H;
    vm_compute in H; discriminate H.
Qed.

Lemma wait_loop_final srv n h st w :
  st <> PENDING -> wait_loop srv n h st w = (Ok st, w).
Proof.
  intro Hst; destruct n; simpl; [reflexivity|].
  destruct (txstatus_eqb st PENDING) eqn:E; [apply txstatus_eqb_pending in E; congruence|].
  reflexivity.
Qed.

(** Each loop turn sleeps 1000 ms and polls once; the loop polls at most
    [n] times and ends on a pending status only after [n] polls. *)
Lemma wait_loop_bound srv n h st w :
  exists k, k <= n
    /\ polls (snd (wait_loop srv n h st w)) = polls w + k
    /\ now (snd (wait_loop srv n h st w)) = (now w + 1000 * N.of_nat k)%N
    /\ (forall st', fst (wait_loop srv n h st w) = Ok st' -> st' <> PENDING \/ k = n).
Proof.
  revert st w; induction n as [|n IH]; intros st w.
  - exists 0; cbn [wait_loop]; unfold ret; cbn [fst snd]; repeat split;
      [lia|lia|lia|intros st' _; right; reflexivity].
  - cbn [wait_loop]. destruct (txstatus_eqb st PENDING) eqn:E.
    + cbv beta iota zeta delta [bind sleep get_transaction].
      cbn [polls now rands logs rpc store storage_down badges].
      destruct (srv_getTransaction srv (polls w)) as [g|e].
      * destruct (IH (get_status g)
                    (mkWorld (now w + 1000) (rands w) (logs w) ("getTransaction" :: rpc w)
                             (S (polls w)) (store w) (storage_down w) (badges w)))
          as (k & Hk & Hp & Hn & Hr).
        exists (S k); cbn [polls now] in *; repeat split.
        -- lia.
        -- rewrite Hp; lia.
        -- rewrite Hn, Nat2N.inj_succ; lia.
        -- intros st' Hst'; destruct (Hr st' Hst'); [left; assumption | right; lia].
      * exists 1; cbn [fst snd polls now]; repeat split; try lia; discriminate.
    + exists 0; unfold ret; cbn [fst snd]; repeat split; [lia|lia|lia|].
      intros st' [= <-]; left; intro Hp; apply txstatus_eqb_pending in Hp; congruence.
Qed.

(** Polling stops at the first final answer. *)
Lemma wait_loop_stops srv n h j final w :
  j < n -> final <> PENDING ->
  (forall i, i < j -> exists g, srv_getTransaction srv (polls w + i) = Ok g /\ get_status g = PENDING) ->
  (exists g, srv_getTransaction srv (polls w + j) = Ok g /\ get_status g = final) ->
  fst (wait_loop srv n h PENDING w) = Ok final
  /\ polls (snd (wait_loop srv n h PENDING w)) = polls w + S j.
Proof.
  revert j w; induction n as [|n IH]; intros j w Hj Hfin Hpre Hj_ans; [lia|].
  cbn [wait_loop]. rewrite (proj2 (txstatus_eqb_pending PENDING) eq_refl).
  cbv beta iota zeta delta [bind sleep get_transaction].
  cbn [polls now rands logs rpc store storage_down badges].
  destruct j as [|j].
  - destruct Hj_ans as (g & Hg & Hs). rewrite Nat.add_0_r in Hg. rewrite Hg, Hs.
    rewrite wait_loop_final by exact Hfin. cbn [fst snd polls]. split; [reflexivity|lia].
  - destruct (Hpre 0 ltac:(lia)) as (g & Hg & Hs). rewrite Nat.add_0_r in Hg. rewrite Hg, Hs.
    destruct (IH j (mkWorld (now w + 1000) (rands w) (logs w) ("getTransaction" :: rpc w)
                            (S (polls w)) (store w) (storage_down w) (badges w)))
      as [H1 H2]; cbn [polls].
    + lia.
    + exact Hfin.
    + intros i Hi. replace (S (polls w) + i) with (polls w + S i) by lia. apply Hpre; lia.
    + replace (S (polls w) + j) with (polls w + S j) by lia. exact Hj_ans.
    + split; [exact H1| rewrite H2; cbn [polls]; lia].
Qed.

(** A transaction that stays pending: [n] polls, [n] seconds. *)
Lemma wait_loop_all_pending srv n h w :
  (forall i, exists g, srv_getTransaction srv i = Ok g /\ get_status g = PENDING) ->
  wait_loop srv n h PENDING w
  = (Ok PENDING, mkWorld (now w + 1000 * N.of_nat n) (rands w) (logs w)
                         (repeat "getTransaction" n ++ rpc w) (polls w + n)
                         (store w) (storage_down w) (badges w)).
Proof.
  intro Hall; revert w; induction n as [|n IH]; intro w.
  - destruct w; cbn [wait_loop]; unfold ret. cbn [now polls rands logs rpc store storage_down badges repeat app].
    rewrite N.add_0_r, Nat.add_0_r. reflexivity.
  - cbn [wait_loop]. rewrite (proj2 (txstatus_eqb_pending PENDING) eq_refl).
    cbv beta iota zeta delta [bind sleep get_transaction].
    cbn [polls now rands logs rpc store storage_down badges].
    destruct (Hall (polls w)) as (g & Hg & Hs). rewrite Hg, Hs.
    rewrite IH. cbn [polls now rands logs rpc store storage_down badges repeat app].
    f_equal. f_equal.
    + rewrite Nat2N.inj_succ; lia.
    + clear. generalize (rpc w). induction n as [|n IHn]; intro l; [reflexivity|].
      simpl. rewrite IHn. reflexivity.
    + lia.
Qed.

(** A signed mint whose transaction never leaves [PENDING] fails after 30
    polls and 30 s with the generic status error. *)
Lemma mint_stays_pending srv c kp receiver testId uri x h e w :
  srv_getAccount srv kp = Ok tt ->
  srv_simulate srv c "mint" [receiver; uri] = Ok (SimOk x) ->
  srv_send srv c "mint" [receiver; uri] = Ok (mkSend PENDING h e) ->
  (forall i, exists g, srv_getTransaction srv i = Ok g /\ get_status g = PENDING) ->
  fst (mintBadgeNFT srv (Some c) receiver testId uri (Some kp) w)
    = Throw "NFT minting failed: Transaction failed with status: PENDING"
  /\ polls (snd (mintBadgeNFT srv (Some c) receiver testId uri (Some kp) w)) = polls w + 30
  /\ now (snd (mintBadgeNFT srv (Some c) receiver testId uri (Some kp) w)) = (now w + 30000)%N.
Proof.
  intros Hacc Hsim Hsend Hall.
  unfold mintBadgeNFT, submit_and_confirm, new_contract.
  cbv beta iota zeta delta [try_catch bind log ret throw rpc_call].
  cbn [now rands logs rpc polls store storage_down badges].
  rewrite Hacc, Hsim, Hsend. cbn [send_status send_hash send_errorResult].
  change (txstatus_eqb PENDING ERROR) with false. cbv iota.
  cbv beta iota. cbn [now rands logs rpc polls store storage_down badges]. rewrite wait_loop_all_pending by exact Hall.
  cbn [now rands logs rpc polls store storage_down badges fst snd].
  repeat split; reflexivity.
Qed.

(** A signed registration whose transaction never leaves [PENDING] fails
    after 30 polls and 30 s with the generic status error. *)
Lemma register_stays_pending srv registry kp testId creator cid x h e w :
  srv_getAccount srv kp = Ok tt ->
  srv_simulate srv registry "register_test" [testId; creator; cid] = Ok (SimOk x) ->
  srv_send srv registry "register_test" [testId; creator; cid] = Ok (mkSend PENDING h e) ->
  (forall i, exists g, srv_getTransaction srv i = Ok g /\ get_status g = PENDING) ->
  fst (registerTestOnChain_signed srv registry testId creator cid (Some kp) w)
    = Throw "Blockchain registration failed: Transaction failed with status: PENDING"
  /\ polls (snd (registerTestOnChain_signed srv registry testId creator cid (Some kp) w)) = polls w + 30
  /\ now (snd (registerTestOnChain_signed srv registry testId creator cid (Some kp) w)) = (now w + 30000)%N.
Proof.
  intros Hacc Hsim Hsend Hall.
  unfold registerTestOnChain_signed, submit_and_confirm, new_contract.
  cbv beta iota zeta delta [try_catch bind log ret throw rpc_call].
  cbn [now rands logs rpc polls store storage_down badges].
  rewrite Hacc, Hsim, Hsend. cbn [send_status send_hash send_errorResult].
  change (txstatus_eqb PENDING ERROR) with false. cbv iota.
  cbv beta iota. cbn [now rands logs rpc polls store storage_down badges]. rewrite wait_loop_all_pending by exact Hall.
  cbn [now rands logs rpc polls store storage_down badges fst snd].
  repeat split; reflexivity.
Qed.

(** C6 (claim as stated fails here): after 30 pending polls the mint and
    the registration fail with the same generic status error as any other
    non-success, there is no distinct timeout; and an answer [NOT_FOUND]
    also ends the polling although the transaction is not final.  The
    contract ids are well-formed (the registry id is the code's default),
    the receiver and signer a well-formed account id. *)
Lemma polling_ends_without_timeout :
  let nft := "CDXCBM3LJ5CFXM7SLQVK6E7BPB63BOZUGOKK4L2PPK22MVCGZWGHCRYD" in
  let registry := "CC6TAXNQXKQS67LTB3RZITFUA5E24OVSXFPP5Z7ALYDVQ74FGV2XGIVH" in
  let acct := "GAAZI4TCR3TY5OJHCTJC2A4QSY6CJWJH5IAJTGKIN2ER7LBNVKOCCWN7" in
  let srvP := mkServer (fun _ => Ok tt) (fun _ _ _ => Ok (SimOk None))
                       (fun _ _ _ => Ok (mkSend PENDING "h" ""))
                       (fun _ => Ok (mkGet PENDING false None)) in
  let srvN := mkServer (fun _ => Ok tt) (fun _ _ _ => Ok (SimOk None))
                       (fun _ _ _ => Ok (mkSend PENDING "h" ""))
                       (fun _ => Ok (mkGet NOT_FOUND false None)) in
  let w := mkWorld 0 [] [] [] 0 [] false [] in
  fst (mintBadgeNFT srvP (Some nft) acct "t" "u" (Some acct) w)
    = Throw "NFT minting failed: Transaction failed with status: PENDING"
  /\ polls (snd (mintBadgeNFT srvP (Some nft) acct "t" "u" (Some acct) w)) = 30
  /\ fst (registerTestOnChain_signed srvP registry "t" acct "cid" (Some acct) w)
    = Throw "Blockchain registration failed: Transaction failed with status: PENDING"
  /\ polls (snd (registerTestOnChain_signed srvP registry "t" acct "cid" (Some acct) w)) = 30
  /\ fst (mintBadgeNFT srvN (Some nft) acct "t" "u" (Some acct) w)
    = Throw "NFT minting failed: Transaction failed with status: NOT_FOUND"
  /\ polls (snd (mintBadgeNFT srvN (Some nft) acct "t" "u" (Some acct) w)) = 1.
Proof. vm_compute. repeat split. Qed.

(** C6 (amended): the confirmation loop makes at most [maxAttempts] = 30
    status polls, each after a 1000 ms wait, ends on a pending status only
    after all 30, and stops at the first [SUCCESS] or [FAILED] answer; a
    mint or a registration still pending after the 30 polls fails with
    the generic error ["Transaction failed with status: PENDING"] (no
    distinct timeout). *)
Theorem confirmation_polling_policy :
  forall (srv : server) (h : string) (w : world),
    (exists k, k <= maxAttempts
       /\ polls (snd (wait_loop srv maxAttempts h PENDING w)) = polls w + k
       /\ now (snd (wait_loop srv maxAttempts h PENDING w)) = (now w + 1000 * N.of_nat k)%N
       /\ (forall st, fst (wait_loop srv maxAttempts h PENDING w) = Ok st ->
                      st <> PENDING \/ k = maxAttempts))
    /\ (forall j final, j < maxAttempts -> (final = SUCCESS \/ final = FAILED) ->
          (forall i, i < j -> exists g, srv_getTransaction srv (polls w + i) = Ok g
                                        /\ get_status g = PENDING) ->
          (exists g, srv_getTransaction srv (polls w + j) = Ok g /\ get_status g = final) ->
          fst (wait_loop srv maxAttempts h PENDING w) = Ok final
          /\ polls (snd (wait_loop srv maxAttempts h PENDING w)) = polls w + S j)
    /\ (forall c kp receiver testId uri x e,
          srv_getAccount srv kp = Ok tt ->
          srv_simulate srv c "mint" [receiver; uri] = Ok (SimOk x) ->
          srv_send srv c "mint" [receiver; uri] = Ok (mkSend PENDING h e) ->
          (forall i, exists g, srv_getTransaction srv i = Ok g /\ get_status g = PENDING) ->
          fst (mintBadgeNFT srv (Some c) receiver testId uri (Some kp) w)
            = Throw "NFT minting failed: Transaction failed with status: PENDING"
          /\ polls (snd (mintBadgeNFT srv (Some c) receiver testId uri (Some kp) w)) = polls w + 30
          /\ now (snd (mintBadgeNFT srv (Some c) receiver testId uri (Some kp) w)) = (now w + 30000)%N)
    /\ (forall registry kp testId creator cid x e,
          srv_getAccount srv kp = Ok tt ->
          srv_simulate srv registry "register_test" [testId; creator; cid] = Ok (SimOk x) ->
          srv_send srv registry "register_test" [testId; creator; cid] = Ok (mkSend PENDING h e) ->
          (forall i, exists g, srv_getTransaction srv i = Ok g /\ get_status g = PENDING) ->
          fst (registerTestOnChain_signed srv registry testId creator cid (Some kp) w)
            = Throw "Blockchain registration failed: Transaction failed with status: PENDING"
          /\ polls (snd (registerTestOnChain_signed srv registry testId creator cid (Some kp) w))
             = polls w + 30
          /\ now (snd (registerTestOnChain_signed srv registry testId creator cid (Some kp) w))
             = (now w + 30000)%N).
Proof.
  intros srv h w; split; [|split; [|split]].
  - apply wait_loop_bound.
  - intros j final Hj Hfin. apply wait_loop_stops; [exact Hj|].
    destruct Hfin as [-> | ->]; discriminate.
  - intros c kp receiver testId uri x e. apply mint_stays_pending.
  - intros registry kp testId creator cid x e. apply register_stays_pending.
Qed.

(** Decimal printing of [N] is injective. *)
Lemma str_N_inj n m : str_N n = str_N m -> n = m.
Proof.
  intro H. rewrite <- (DecimalN.Unsigned.of_to n), <- (DecimalN.Unsigned.of_to m).
  assert (K : forall k, N.of_uint (N.to_uint k)
              = match NilZero.uint_of_string (str_N k) with
                | Some d => N.of_uint d | None => 0%N end).
  { intro k. unfold str_N. destruct (N.to_uint k) eqn:E;
      try (rewrite NilZero.usu by discriminate; reflexivity). reflexivity. }
  rewrite !K, H. reflexivity.
Qed.

Lemma digits_no_sep u x y : NilEmpty.string_of_uint u <> x ++ String "_" y.
Proof.
  revert x y. induction u; intros x y H; destruct x as [|c x]; simpl in H;
    inversion H; subst;
    match goal with Hh : NilEmpty.string_of_uint _ = _ |- _ => exact (IHu _ _ Hh) end.
Qed.

(** A decimal numeral contains no underscore. *)
Lemma str_N_no_sep n x y : str_N n <> x ++ String "_" y.
Proof.
  unfold str_N. destruct (N.to_uint n); try apply digits_no_sep.
  destruct x as [|c [|c' x]]; simpl; intro H; inversion H.
Qed.

Lemma append_cancel_l (p x y : string) : p ++ x = p ++ y -> x = y.
Proof. induction p as [|c p IH]; simpl; [tauto|]. intro H. injection H. exact IH. Qed.

(** Splitting at the last separator when the suffixes hold none. *)
Lemma append_sep_cancel a b d e :
  (forall x y, d <> x ++ String "_" y) -> (forall x y, e <> x ++ String "_" y) ->
  a ++ String "_" d = b ++ String "_" e -> a = b /\ d = e.
Proof.
  intros Hd He. revert b. induction a as [|c a IH]; intros [|c' b] H; simpl in H.
  - injection H as ->. split; reflexivity.
  - injection H as _ H. exfalso. exact (Hd b e H).
  - injection H as _ H. exfalso. exact (He a d (eq_sym H)).
  - injection H as -> H. destruct (IH b H) as [-> ->]. split; reflexivity.
Qed.

Lemma placeholder_token_id_inj t1 t2 t t' :
  placeholder_token_id t1 t = placeholder_token_id t2 t' -> t1 = t2 /\ t = t'.
Proof.
  unfold placeholder_token_id. intro H. apply (append_cancel_l "nft_") in H.
  apply append_sep_cancel in H; [|apply str_N_no_sep|apply str_N_no_sep].
  destruct H as [-> H]. split; [reflexivity|]. exact (str_N_inj _ _ H).
Qed.

(** C9: in signed mode, once the submission is confirmed with hash
    [hash], a return value that cannot be decoded does not fail the mint:
    the result is a success with the real [hash] and the placeholder token
    id [nft_<testId>_<Date.now()>], and the warning is logged; distinct
    tests or timestamps give distinct placeholders. *)
Theorem mint_decode_fallback srv c kp receiver testId uri w w1 hash txr :
  submit_and_confirm srv (Some c) "mint" [receiver; uri] kp
                     (snd (log "Minting badge NFT..." w)) = (Ok hash, w1) ->
  srv_getTransaction srv (polls w1) = Ok txr ->
  get_status txr = SUCCESS -> get_resultMetaXdr txr = true ->
  get_returnValue txr = Some ScUndecodable ->
  fst (mintBadgeNFT srv (Some c) receiver testId uri (Some kp) w)
    = Ok (mkMint true hash (JStr (placeholder_token_id testId (now w1))) uri)
  /\ In "Could not parse token ID from result, using generated ID"
        (logs (snd (mintBadgeNFT srv (Some c) receiver testId uri (Some kp) w)))
  /\ (forall testId' t', placeholder_token_id testId (now w1) = placeholder_token_id testId' t' ->
        testId = testId' /\ now w1 = t').
Proof.
  intros Hsc Htx Hst Hmeta Hret.
  cbv beta iota zeta delta [log] in Hsc. cbn [fst snd] in Hsc.
  unfold mintBadgeNFT, extract_token_id, get_transaction.
  cbv beta iota zeta delta [try_catch bind log ret throw Date_now scValToNative].
  cbn [now rands logs rpc polls store storage_down badges].
  rewrite Hsc. cbn [now rands logs rpc polls store storage_down badges].
  rewrite Htx. cbn [now rands logs rpc polls store storage_down badges].
  rewrite Hst, Hmeta, Hret. cbn [fst snd logs].
  split; [reflexivity|split; [simpl; tauto|]].
  intros testId' t' H. apply placeholder_token_id_inj in H. exact H.
Qed.

(** A ledger that confirms the mint at once and returns an undecodable
    value. *)
Lemma mint_decode_fallback_witness :
  let srvS := mkServer (fun _ => Ok tt) (fun _ _ _ => Ok (SimOk None))
                       (fun _ _ _ => Ok (mkSend SUCCESS "h" ""))
                       (fun _ => Ok (mkGet SUCCESS true (Some ScUndecodable))) in
  let w := mkWorld 1005 [] [] [] 0 [] false [] in
  let w1 := snd (submit_and_confirm srvS (Some "C") "mint" ["G"; "u"] "K"
                                    (snd (log "Minting badge NFT..." w))) in
  fst (mintBadgeNFT srvS (Some "C") "G" "t" "u" (Some "K") w)
    = Ok (mkMint true "h" (JStr (placeholder_token_id "t" (now w1))) "u")
  /\ In "Could not parse token ID from result, using generated ID"
        (logs (snd (mintBadgeNFT srvS (Some "C") "G" "t" "u" (Some "K") w)))
  /\ (forall testId' t', placeholder_token_id "t" (now w1) = placeholder_token_id testId' t' ->
        "t" = testId' /\ now w1 = t').
Proof.
  intros srvS w w1.
  apply (mint_decode_fallback srvS "C" "K" "G" "t" "u" w w1 "h"
                              (mkGet SUCCESS true (Some ScUndecodable)));
    vm_compute; reflexivity.
Defined.

(** C4 (claim as stated fails here): the token id of a no-signer mint,
    [nft_<Date.now()>_<random>], has the same shape as the placeholder
    token id of a signed mint, [nft_<testId>_<Date.now()>]: here both are
    ["nft_5_1000"], so the token id does not tell the two modes apart. *)
Lemma sim_token_id_unmarked :
  let srvS := mkServer (fun _ => Ok tt) (fun _ _ _ => Ok (SimOk None))
                       (fun _ _ _ => Ok (mkSend SUCCESS "h" ""))
                       (fun _ => Ok (mkGet SUCCESS true (Some ScUndecodable))) in
  fst (mintBadgeNFT srvS (Some "C") "G" "5" "u" None
                    (mkWorld 5 ["1000"; "x"] [] [] 0 [] false []))
    = Ok (mkMint true "sim_5_x" (JStr "nft_5_1000") "u")
  /\ fst (mintBadgeNFT srvS (Some "C") "G" "5" "u" (Some "K")
                       (mkWorld 1000 [] [] [] 0 [] false []))
    = Ok (mkMint true "h" (JStr "nft_5_1000") "u").
Proof. vm_compute. split; reflexivity. Qed.

(** C4 (amended): without a signer, [mintBadgeNFT] and
    [registerTestOnChain] of the ledger services make no ledger RPC and
    succeed with a hash [sim_<Date.now()>_<random>]; the mint's token id is
    [nft_<Date.now()>_<random>] with no simulation prefix.  The backend
    [mintBadgeNFT] (always simulated) makes no ledger RPC, but uploads the
    metadata to the object store and fails when that upload fails; its
    hash starts with [sim_] and its token id is [nft_<testId>_<Date.now()>]. *)
Theorem no_signer_mode_results :
  forall srv bc registry receiver testId uri creator cid w,
    fst (mintBadgeNFT srv bc receiver testId uri None w)
      = Ok (mkMint true ("sim_" ++ str_N (now w) ++ "_" ++ nth 1 (rands w) "")
                   (JStr ("nft_" ++ str_N (now w) ++ "_" ++ nth 0 (rands w) "")) uri)
    /\ rpc (snd (mintBadgeNFT srv bc receiver testId uri None w)) = rpc w
    /\ fst (registerTestOnChain_signed srv registry testId creator cid None w)
      = Ok (mkReg true ("sim_" ++ str_N (now w) ++ "_" ++ nth 0 (rands w) "")
                  (test_metadata (JStr testId) (JStr creator) (JStr cid) (now w)))
    /\ rpc (snd (registerTestOnChain_signed srv registry testId creator cid None w)) = rpc w
    /\ (forall url rcv tid title score total,
          keeps same_rpc (mintBadgeNFT_sim url rcv tid title score total))
    /\ (forall url rcv tid title score total r w',
          mintBadgeNFT_sim url rcv tid title score total w = (Ok r, w') ->
          m_tokenId r = JStr ("nft_" ++ js_to_string tid ++ "_" ++ str_N (now w))
          /\ exists s, m_txHash r = "sim_" ++ s)
    /\ (forall url rcv tid title score total,
          storage_down w = true ->
          fst (mintBadgeNFT_sim url rcv tid title score total w)
            = Throw "NFT minting failed: TransientStorageError").
Proof.
  intros srv bc registry receiver testId uri creator cid w.
  split; [|split; [|split; [|split; [|split; [|split]]]]].
  - unfold mintBadgeNFT. run_world w. destruct rands0 as [|r1 [|r2 rs]]; reflexivity.
  - unfold mintBadgeNFT. run_world w. destruct rands0 as [|r1 [|r2 rs]]; reflexivity.
  - unfold registerTestOnChain_signed. run_world w. destruct rands0 as [|r1 rs]; reflexivity.
  - unfold registerTestOnChain_signed. run_world w. destruct rands0 as [|r1 rs]; reflexivity.
  - intros. unfold mintBadgeNFT_sim, uploadBadgeMetadata.
    pose proof same_rpc_refl; pose proof same_rpc_trans. keeps_tac.
  - intros url rcv tid title score total r w' H.
    unfold mintBadgeNFT_sim, uploadBadgeMetadata in H. run_world w.
    destruct storage_down0; [discriminate H|].
    rewrite Bool.andb_false_r in H.
    destruct rands0 as [|r1 rs]; injection H as <- _; split; eexists; reflexivity.
  - intros url rcv tid title score total Hd.
    unfold mintBadgeNFT_sim, uploadBadgeMetadata. destruct w as [? ? ? ? ? ? sd ?].
    cbn [storage_down] in Hd. subst sd. reflexivity.
Qed.

(** C7 (claim as stated fails here): the controllers test JavaScript
    truthiness, so a field that is present but falsy, here [testId = 0],
    is answered with 400 as if it were missing. *)
Lemma register_present_falsy_field :
  fst (registerTest [("testId", JNum 0); ("creator", JStr "c"); ("metadataCid", JStr "m")]
                    (mkWorld 5 ["a"] [] [] 0 [] false []))
    = Ok (mkResp 400 (JObj [("error", JStr "Missing required fields: testId, creator, metadataCid")]))
  /\ lookup [("testId", JNum 0); ("creator", JStr "c"); ("metadataCid", JStr "m")] "testId" = JNum 0.
Proof. vm_compute. split; reflexivity. Qed.

(** C7 (amended): each controller always answers; it answers 400 with an
    [error] body exactly when one of its required fields is absent or
    falsy; otherwise it answers 200 with [{success, message, data}] when
    the workflow returns and 500 with [{error, details}] when the workflow
    throws. *)
Theorem controller_responses :
  (forall req w, exists resp, fst (registerTest req w) = Ok resp
     /\ (status resp = 400 <->
         (truthy (lookup req "testId") && truthy (lookup req "creator")
          && truthy (lookup req "metadataCid")) = false)
     /\ (status resp = 400 ->
         body resp = JObj [("error", JStr "Missing required fields: testId, creator, metadataCid")]))
  /\ (forall req w,
        truthy (lookup req "testId") = true -> truthy (lookup req "creator") = true ->
        truthy (lookup req "metadataCid") = true ->
        match fst (registerTestOnChain (lookup req "testId") (lookup req "creator")
                                       (lookup req "metadataCid") w) with
        | Ok r => fst (registerTest req w)
                  = Ok (mkResp 200 (JObj [("success", JBool true);
                                          ("message", JStr "Test registered on blockchain");
                                          ("data", reg_to_json r)]))
        | Throw e => fst (registerTest req w)
                  = Ok (mkResp 500 (JObj [("error", JStr "Failed to register test on blockchain");
                                          ("details", JStr e)]))
        end)
  /\ (forall url req w, exists resp, fst (mintNFT url req w) = Ok resp
     /\ (status resp = 400 <->
         (truthy (lookup req "receiver") && truthy (lookup req "testId")) = false)
     /\ (status resp = 400 ->
         body resp = JObj [("error", JStr "Missing required fields: receiver, testId")]))
  /\ (forall url req w,
        truthy (lookup req "receiver") = true -> truthy (lookup req "testId") = true ->
        match fst (mintBadgeNFT_sim url (lookup req "receiver") (lookup req "testId")
                                    (lookup req "testTitle") (lookup req "score")
                                    (lookup req "totalScore") w) with
        | Ok r => fst (mintNFT url req w)
                  = Ok (mkResp 200 (JObj [("success", JBool true);
                                          ("message", JStr "NFT badge minted successfully");
                                          ("data", mint_to_json r)]))
        | Throw e => fst (mintNFT url req w)
                  = Ok (mkResp 500 (JObj [("error", JStr "Failed to mint NFT badge");
                                          ("details", JStr e)]))
        end).
Proof.
  split; [|split; [|split]].
  - intros req w. unfold registerTest, try_catch, bind.
    destruct (truthy (lookup req "testId")), (truthy (lookup req "creator")),
             (truthy (lookup req "metadataCid")); cbn [negb orb andb];
      try (eexists; split; [reflexivity|]; cbn [status body];
           split; [split; reflexivity|reflexivity]).
    destruct (registerTestOnChain _ _ _ w) as [[r|e] w'];
      (eexists; split; [reflexivity|]; cbn [status body];
       split; [split; discriminate|discriminate]).
  - intros req w H1 H2 H3. unfold registerTest, try_catch, bind.
    rewrite H1, H2, H3. cbn [negb orb].
    destruct (registerTestOnChain _ _ _ w) as [[r|e] w']; reflexivity.
  - intros url req w. unfold mintNFT, try_catch, bind.
    destruct (truthy (lookup req "receiver")), (truthy (lookup req "testId"));
      cbn [negb orb andb];
      try (eexists; split; [reflexivity|]; cbn [status body];
           split; [split; reflexivity|reflexivity]).
    destruct (mintBadgeNFT_sim _ _ _ _ _ _ w) as [[r|e] w'];
      (eexists; split; [reflexivity|]; cbn [status body];
       split; [split; discriminate|discriminate]).
  - intros url req w H1 H2. unfold mintNFT, try_catch, bind.
    rewrite H1, H2. cbn [negb orb].
    destruct (mintBadgeNFT_sim _ _ _ _ _ _ w) as [[r|e] w']; reflexivity.
Qed.

(** C1 (claim as stated fails here): with a badge row for test ["t"] and
    wallet ["G"] already holding token ["nft_t_1"], a second mint-nft call
    for the same pair one millisecond later does not return that token but
    mints ["nft_t_2"]; the record store is not consulted. *)
Lemma mint_twice_new_token :
  let req := [("receiver", JStr "G"); ("testId", JStr "t")] in
  let row := mkBadge "b1" "t" "G" (Some "nft_t_1") (Some "sim_1_a")
                     (Some "https://x/storage/v1/object/public/stellar/badge-metadata/t_G.json") in
  let u := "https://x/storage/v1/object/public/stellar/badge-metadata/t_G.json" in
  let twice := (let* r1 := mintNFT "https://x" req in
                sleep 1;;
                let* r2 := mintNFT "https://x" req in
                ret (r1, r2)) in
  fst (twice (mkWorld 1 ["a"; "b"] [] [] 0 [] false [row]))
    = Ok (mkResp 200 (JObj [("success", JBool true);
                            ("message", JStr "NFT badge minted successfully");
                            ("data", mint_to_json (mkMint true "sim_1_a" (JStr "nft_t_1") u))]),
          mkResp 200 (JObj [("success", JBool true);
                            ("message", JStr "NFT badge minted successfully");
                            ("data", mint_to_json (mkMint true "sim_2_b" (JStr "nft_t_2") u))]))
  /\ badges (snd (twice (mkWorld 1 ["a"; "b"] [] [] 0 [] false [row]))) = [row].
Proof. vm_compute. split; reflexivity. Qed.

(** C1 (amended): the mint-nft operation neither reads nor writes the
    badge records; with its required fields present and the object store
    up it always mints a fresh token [nft_<testId>_<Date.now()>], whatever
    badges exist; the retry path updates the badge row with the given id
    in place, never adding a row. *)
Theorem mint_ignores_badge_records :
  (forall url req w, badges (snd (mintNFT url req w)) = badges w)
  /\ (forall url req w,
        truthy (lookup req "receiver") = true -> truthy (lookup req "testId") = true ->
        storage_down w = false ->
        fst (mintNFT url req w)
          = Ok (mkResp 200 (JObj [("success", JBool true);
                                  ("message", JStr "NFT badge minted successfully");
                                  ("data", mint_to_json
                                     (mkMint true ("sim_" ++ str_N (now w) ++ "_" ++ nth 0 (rands w) "")
                                        (JStr ("nft_" ++ js_to_string (lookup req "testId") ++ "_"
                                               ++ str_N (now w)))
                                        (getPublicUrl url "stellar"
                                           ("badge-metadata/" ++ js_to_string (lookup req "testId") ++ "_"
                                            ++ js_to_string (lookup req "receiver") ++ ".json"))))])))
  /\ (forall id tokenId txHash url bs,
        map b_id (update_badge_by_id id tokenId txHash url bs) = map b_id bs
        /\ length (update_badge_by_id id tokenId txHash url bs) = length bs).
Proof.
  split; [|split].
  - intros url req. change (keeps same_records (mintNFT url req)).
    unfold mintNFT, mintBadgeNFT_sim, uploadBadgeMetadata. cbv zeta.
    pose proof same_records_refl; pose proof same_records_trans. keeps_tac.
  - intros url req w H1 H2 Hd. unfold mintNFT, try_catch, bind.
    rewrite H1, H2. cbn [negb orb].
    unfold mintBadgeNFT_sim, uploadBadgeMetadata. run_world w. subst storage_down0.
    rewrite Bool.andb_false_r. destruct rands0; reflexivity.
  - intros id tokenId txHash url bs. unfold update_badge_by_id. split.
    + rewrite map_map. apply map_ext. intro b. destruct (String.eqb (b_id b) id); reflexivity.
    + apply length_map.
Qed.

(** C2 (claim as stated fails here): two register-test calls with the
    same fields return different transaction hashes, and neither writes a
    registry reference to the record store. *)
Lemma register_twice_new_hash :
  let req := [("testId", JStr "t"); ("creator", JStr "c"); ("metadataCid", JStr "m")] in
  let w0 := mkWorld 5 ["a"; "b"] [] [] 0 [] false [] in
  let twice := (let* r1 := registerTest req in
                let* r2 := registerTest req in
                ret (r1, r2)) in
  fst (twice w0)
    = Ok (mkResp 200 (JObj [("success", JBool true);
                            ("message", JStr "Test registered on blockchain");
                            ("data", reg_to_json (mkReg true "sim_5_a"
                               (test_metadata (JStr "t") (JStr "c") (JStr "m") 5)))]),
          mkResp 200 (JObj [("success", JBool true);
                            ("message", JStr "Test registered on blockchain");
                            ("data", reg_to_json (mkReg true "sim_5_b"
                               (test_metadata (JStr "t") (JStr "c") (JStr "m") 5)))]))
  /\ badges (snd (twice w0)) = [] /\ store (snd (twice w0)) = [].
Proof. vm_compute. repeat split. Qed.

(** C2 (amended): the register-test operation makes no lookup and no
    write in the record store or the object store and no ledger RPC; with
    its fields present it answers 200 with a fresh hash
    [sim_<Date.now()>_<random>], so repeated calls are not idempotent. *)
Theorem register_not_idempotent :
  (forall req w, badges (snd (registerTest req w)) = badges w
                 /\ store (snd (registerTest req w)) = store w
                 /\ rpc (snd (registerTest req w)) = rpc w)
  /\ (forall req w,
        truthy (lookup req "testId") = true -> truthy (lookup req "creator") = true ->
        truthy (lookup req "metadataCid") = true ->
        fst (registerTest req w)
          = Ok (mkResp 200 (JObj [("success", JBool true);
                                  ("message", JStr "Test registered on blockchain");
                                  ("data", reg_to_json
                                     (mkReg true ("sim_" ++ str_N (now w) ++ "_" ++ nth 0 (rands w) "")
                                        (test_metadata (lookup req "testId") (lookup req "creator")
                                           (lookup req "metadataCid") (now w))))]))).
Proof.
  split.
  - intros req w.
    assert (Ks : keeps same_stores (registerTest req)).
    { unfold registerTest, registerTestOnChain. cbv zeta.
      pose proof same_stores_refl; pose proof same_stores_trans. keeps_tac. }
    assert (Kr : keeps same_rpc (registerTest req)).
    { unfold registerTest, registerTestOnChain. cbv zeta.
      pose proof same_rpc_refl; pose proof same_rpc_trans. keeps_tac. }
    destruct (Ks w) as [Hb Hs]. split; [exact Hb|split; [exact Hs|exact (Kr w)]].
  - intros req w H1 H2 H3. unfold registerTest, try_catch, bind.
    rewrite H1, H2, H3. cbn [negb orb].
    unfold registerTestOnChain. run_world w. destruct rands0; reflexivity.
Qed.

(** C3 (claim as stated fails here): the mint-nft operation has no
    practice mode; a request flagged as practice is minted like any other
    and answered 200 with a token id. *)
Lemma practice_request_minted :
  fst (mintNFT "https://x" [("receiver", JStr "G"); ("testId", JStr "t"); ("practice", JBool true)]
               (mkWorld 5 ["a"] [] [] 0 [] false []))
    = Ok (mkResp 200 (JObj [("success", JBool true);
                            ("message", JStr "NFT badge minted successfully");
                            ("data", mint_to_json (mkMint true "sim_5_a" (JStr "nft_t_5")
                               "https://x/storage/v1/object/public/stellar/badge-metadata/t_G.json"))])).
Proof. vm_compute. reflexivity. Qed.

(** C3 (amended): the mint-nft operation reads only the fields
    [receiver], [testId], [testTitle], [score] and [totalScore] of the
    request, so no practice flag can change its outcome; with [receiver]
    and [testId] present and the object store up it answers 200 with a
    non-null token id. *)
Theorem mint_has_no_practice_mode :
  (forall url req w,
     mintNFT url req w
     = mintNFT url [("receiver", lookup req "receiver"); ("testId", lookup req "testId");
                    ("testTitle", lookup req "testTitle"); ("score", lookup req "score");
                    ("totalScore", lookup req "totalScore")] w)
  /\ (forall url req w,
        truthy (lookup req "receiver") = true -> truthy (lookup req "testId") = true ->
        storage_down w = false ->
        exists r, fst (mintNFT url req w)
                  = Ok (mkResp 200 (JObj [("success", JBool true);
                                          ("message", JStr "NFT badge minted successfully");
                                          ("data", mint_to_json r)]))
                  /\ m_success r = true
                  /\ exists tok, m_tokenId r = JStr tok).
Proof.
  split.
  - intros url req w. reflexivity.
  - intros url req w H1 H2 Hd. unfold mintNFT, try_catch, bind.
    rewrite H1, H2. cbn [negb orb].
    unfold mintBadgeNFT_sim, uploadBadgeMetadata. run_world w. subst storage_down0.
    rewrite Bool.andb_false_r.
    destruct rands0; (eexists; split; [reflexivity|]; split; [reflexivity|]; eexists; reflexivity).
Qed.


(** * Further properties of the code *)

(** ** Strings *)
Lemma string_length_app (x y : string) : String.length (x ++ y) = String.length x + String.length y.
Proof. induction x as [|c x IH]; simpl; [reflexivity|]. rewrite IH; reflexivity. Qed.

Lemma string_app_nil_r (x : string) : x ++ "" = x.
Proof. induction x as [|c x IH]; simpl; [reflexivity|]. rewrite IH; reflexivity. Qed.

Lemma string_app_assoc (x y z : string) : (x ++ y) ++ z = x ++ y ++ z.
Proof. induction x as [|c x IH]; simpl; [reflexivity|]. rewrite IH; reflexivity. Qed.

Lemma substring_app_prefix (p r : string) : String.substring 0 (String.length p) (p ++ r) = p.
Proof. induction p as [|c p IH]; simpl; [destruct r; reflexivity|]. rewrite IH; reflexivity. Qed.

Lemma substring_app_suffix (x s : string) :
  String.substring (String.length x) (String.length s) (x ++ s) = s.
Proof.
  induction x as [|c x IH]; simpl; [|exact IH].
  pose proof (substring_app_prefix s "") as H. rewrite string_app_nil_r in H. exact H.
Qed.

Lemma string_split_at (n : nat) (x : string) :
  n <= String.length x -> exists a b, x = a ++ b /\ String.length a = n.
Proof.
  revert x; induction n as [|n IH]; intros x H.
  - exists "", x; split; reflexivity.
  - destruct x as [|c x]; simpl in H; [lia|].
    destruct (IH x ltac:(lia)) as (a & b & -> & Ha).
    exists (String c a), b; split; [reflexivity|simpl; lia].
Qed.

(** [formatContractAddress] leaves an address shorter than 10 characters
    unchanged, shortens a longer one to its first 6 characters, ["..."]
    and its last 4, and is idempotent. *)
Theorem format_contract_address_shape :
  (forall address, String.length address < 10 -> formatContractAddress address = address)
  /\ (forall p m s, String.length p = 6 -> String.length s = 4 ->
        formatContractAddress (p ++ m ++ s) = p ++ "..." ++ s)
  /\ (forall address, formatContractAddress (formatContractAddress address)
                      = formatContractAddress address).
Proof.
  assert (B : forall p m s, String.length p = 6 -> String.length s = 4 ->
        formatContractAddress (p ++ m ++ s) = p ++ "..." ++ s).
  { intros p m s Hp Hs. unfold formatContractAddress, js_substring.
    rewrite !string_length_app, Hp, Hs.
    replace (String.eqb (p ++ m ++ s) "") with false.
    2:{ destruct p; [discriminate|reflexivity]. }
    replace (Nat.ltb (6 + (String.length m + 4)) 10) with false by (symmetry; apply Nat.ltb_ge; lia).
    simpl orb. cbv iota.
    replace (Nat.min (Nat.min 0 (6 + (String.length m + 4))) (Nat.min 6 (6 + (String.length m + 4)))) with 0 by lia.
    replace (Nat.max (Nat.min 0 (6 + (String.length m + 4))) (Nat.min 6 (6 + (String.length m + 4))) - 0) with 6 by lia.
    replace (Nat.min (6 + (String.length m + 4) - 4) (6 + (String.length m + 4))) with (String.length (p ++ m)) by (rewrite string_length_app; lia).
    replace (Nat.min (6 + (String.length m + 4)) (6 + (String.length m + 4))) with (String.length (p ++ m) + 4) by (rewrite string_length_app; lia).
    replace (Nat.min (String.length (p ++ m)) (String.length (p ++ m) + 4)) with (String.length (p ++ m)) by lia.
    replace (Nat.max (String.length (p ++ m)) (String.length (p ++ m) + 4) - String.length (p ++ m)) with (String.length s) by lia.
    rewrite <- Hp, substring_app_prefix.
    rewrite <- (string_app_assoc p m s), substring_app_suffix. reflexivity. }
  assert (A : forall address, String.length address < 10 -> formatContractAddress address = address).
  { intros address H. unfold formatContractAddress.
    replace (Nat.ltb (String.length address) 10) with true by (symmetry; apply Nat.ltb_lt; exact H).
    rewrite Bool.orb_true_r. reflexivity. }
  split; [exact A|]. split; [exact B|].
  intro address.
  destruct (Nat.ltb (String.length address) 10) eqn:E.
  - rewrite (A address (proj1 (Nat.ltb_lt _ _) E)). apply A. apply Nat.ltb_lt; exact E.
  - assert (L : 10 <= String.length address) by (apply Nat.ltb_ge; exact E).
    destruct (string_split_at 6 address ltac:(lia)) as (p & r & -> & Hp).
    rewrite string_length_app, Hp in L.
    destruct (string_split_at (String.length r - 4) r ltac:(lia)) as (m & s & -> & Hm).
    rewrite string_length_app in L, Hm.
    assert (Hs : String.length s = 4) by lia.
    rewrite (B p m s Hp Hs). exact (B p "..." s Hp Hs).
Qed.

(** Explorer links: distinct transaction hashes give distinct
    transaction URLs, and a transaction URL is never a contract URL. *)
Theorem explorer_urls_injective :
  forall NETWORK h h' c,
    (getExplorerUrl NETWORK h = getExplorerUrl NETWORK h' -> h = h')
    /\ getExplorerUrl NETWORK h <> getContractExplorerUrl NETWORK c.
Proof.
  intros NETWORK h h' c. unfold getExplorerUrl, getContractExplorerUrl. split.
  - intro H. apply append_cancel_l, append_cancel_l in H. simpl in H.
    injection H as H. exact H.
  - intro H. apply append_cancel_l, append_cancel_l in H. discriminate H.
Qed.

(** The simulated registration of sorobanSimple.ts succeeds with the hash
    [sim_<Date.now()>_<random>], consumes one random draw, logs four
    lines (the start, the success, the configured contract id and the
    explorer link of that hash) and touches neither the ledger nor the
    stores. *)
Theorem simple_register_result NETWORK REGISTRY testId creator cid w r rs :
  rands w = r :: rs ->
  let txHash := "sim_" ++ str_N (now w) ++ "_" ++ r in
  registerTestOnChain_simple NETWORK REGISTRY testId creator cid w
  = (Ok (true, txHash),
     mkWorld (now w) rs (("View on Explorer: " ++ getExplorerUrl NETWORK txHash)
                         :: ("Contract: " ++ env_str REGISTRY)
                         :: "Test registered on-chain (simulated)"
                         :: "Registering test on-chain..." :: logs w)
             (rpc w) (polls w) (store w) (storage_down w) (badges w)).
Proof.
  intros Hr txHash. unfold registerTestOnChain_simple. run_world w. cbn in Hr. subst. reflexivity.
Qed.

(** The simulated mint of sorobanSimple.ts returns the hash
    [sim_<now>_<first draw>] and the token id [NFT_<now>_<second draw>],
    logs five lines (the start, the success, the token id, the configured
    contract id and the explorer link) and touches neither the ledger nor
    the stores. *)
Theorem simple_mint_result NETWORK NFT_ID receiver testId uri w r1 r2 rs :
  rands w = r1 :: r2 :: rs ->
  let txHash := "sim_" ++ str_N (now w) ++ "_" ++ r1 in
  let tokenId := "NFT_" ++ str_N (now w) ++ "_" ++ r2 in
  mintBadgeNFT_simple NETWORK NFT_ID receiver testId uri w
  = (Ok (true, txHash, tokenId),
     mkWorld (now w) rs (("View on Explorer: " ++ getExplorerUrl NETWORK txHash)
                         :: ("Contract: " ++ env_str NFT_ID)
                         :: ("Token ID: " ++ tokenId)
                         :: "Badge NFT minted (simulated)"
                         :: "Minting badge NFT..." :: logs w)
             (rpc w) (polls w) (store w) (storage_down w) (badges w)).
Proof.
  intros Hr txHash tokenId. unfold mintBadgeNFT_simple. run_world w. cbn in Hr. subst. reflexivity.
Qed.

(** The second [generateBadgeMetadataUri] never rejects: it returns the
    public URL of [badge-metadata/<testId>_<wallet>.json] whether the
    upload succeeds or not; on success that key holds the metadata, when
    the store is down nothing is stored and the error is logged. *)
Theorem metadata_uri_v2_never_fails url testId wallet title score total w :
  let fileName := testId ++ "_" ++ wallet ++ ".json" in
  fst (generateBadgeMetadataUri_v2 url testId wallet title score total w)
    = Ok (getPublicUrl url "badge-metadata" fileName)
  /\ (storage_down w = false ->
      store (snd (generateBadgeMetadataUri_v2 url testId wallet title score total w))
      = ("badge-metadata/" ++ fileName,
         badge_metadata_v2 url testId wallet title score total (toISOString (now w)))
        :: remove_key ("badge-metadata/" ++ fileName) (store w))
  /\ (storage_down w = true ->
      store (snd (generateBadgeMetadataUri_v2 url testId wallet title score total w)) = store w
      /\ In "Error uploading badge metadata"
            (logs (snd (generateBadgeMetadataUri_v2 url testId wallet title score total w)))).
Proof.
  intro fileName. unfold generateBadgeMetadataUri_v2, getPublicUrl.
  run_world w. match goal with |- context [if ?b then _ else _] => destruct b end; cbv beta iota.
  - split; [reflexivity|]. split; [discriminate|]. intros _. split; [reflexivity|].
    vm_compute [includes]. simpl. left; reflexivity.
  - rewrite Bool.andb_false_r. cbv beta iota.
    split; [reflexivity|]. split; [intros _; reflexivity|discriminate].
Qed.

(** The first [generateBadgeMetadataUri] rejects with the storage error
    when the store is down, stores nothing and logs both error messages;
    when the store is up its existence check logs the file as verified. *)
Theorem metadata_uri_v1_upload_outcome url testId wallet title score total w :
  (storage_down w = true ->
   fst (generateBadgeMetadataUri url testId wallet title score total w) = Throw "TransientStorageError"
   /\ store (snd (generateBadgeMetadataUri url testId wallet title score total w)) = store w
   /\ firstn 2 (logs (snd (generateBadgeMetadataUri url testId wallet title score total w)))
      = ["Error generating badge metadata"; "Error uploading badge metadata"])
  /\ (storage_down w = false ->
      In "Verified: File exists in bucket"
         (logs (snd (generateBadgeMetadataUri url testId wallet title score total w)))).
Proof.
  unfold generateBadgeMetadataUri. run_world w. match goal with |- context [if ?b then _ else _] => destruct b end; cbv beta iota.
  - split; [intros _; repeat split; reflexivity | discriminate].
  - split; [discriminate|intros _].
    rewrite Bool.andb_false_r. cbv beta iota.
    replace (key_exists _ _) with true.
    + simpl. left; reflexivity.
    + simpl. rewrite String.eqb_refl. reflexivity.
Qed.

Lemma remove_key_filter_idem k st : remove_key k (remove_key k st) = remove_key k st.
Proof.
  induction st as [|[k' v] st IH]; [reflexivity|].
  unfold remove_key in *; cbn [filter fst].
  destruct (String.eqb k k') eqn:E; cbn [negb filter fst]; rewrite ?E; cbn [negb];
    [exact IH | rewrite IH; reflexivity].
Qed.

(** Re-uploading a key replaces its one entry. *)
Lemma remove_key_cons_same k m st :
  remove_key k ((k, m) :: remove_key k st) = remove_key k st.
Proof.
  unfold remove_key at 1. cbn [filter fst]. rewrite String.eqb_refl. cbn [negb].
  apply remove_key_filter_idem.
Qed.

(** One run of the first [generateBadgeMetadataUri] with the store up. *)
Lemma metadata_uri_v1_up url testId wallet title score total w :
  storage_down w = false ->
  let fileName := testId ++ "_" ++ wallet ++ ".json" in
  fst (generateBadgeMetadataUri url testId wallet title score total w)
    = Ok (getPublicUrl url "stellar" ("badge-metadata/" ++ fileName))
  /\ store (snd (generateBadgeMetadataUri url testId wallet title score total w))
     = ("stellar/badge-metadata/" ++ fileName,
        badge_metadata url testId wallet title score total (toISOString (now w)))
       :: remove_key ("stellar/badge-metadata/" ++ fileName) (store w)
  /\ now (snd (generateBadgeMetadataUri url testId wallet title score total w)) = now w
  /\ storage_down (snd (generateBadgeMetadataUri url testId wallet title score total w)) = false.
Proof.
  intros Hup fileName. unfold generateBadgeMetadataUri, getPublicUrl.
  run_world w. subst storage_down0.
  rewrite Bool.andb_false_r. cbv beta iota.
  replace (key_exists _ _) with true.
  - cbv beta iota. repeat split; reflexivity.
  - simpl. rewrite String.eqb_refl. reflexivity.
Qed.

(** Calling the first [generateBadgeMetadataUri] again for the same test
    and wallet (a retry) returns the same URL and leaves one entry under
    [stellar/badge-metadata/<testId>_<wallet>.json]: the upload with
    [upsert: true] replaces the earlier object, nothing accumulates and the
    rest of the store is untouched. *)
Theorem metadata_uri_v1_retry_converges url testId wallet title score total w :
  storage_down w = false ->
  let fileName := testId ++ "_" ++ wallet ++ ".json" in
  let w1 := snd (generateBadgeMetadataUri url testId wallet title score total w) in
  fst (generateBadgeMetadataUri url testId wallet title score total w)
    = Ok (getPublicUrl url "stellar" ("badge-metadata/" ++ fileName))
  /\ fst (generateBadgeMetadataUri url testId wallet title score total w1)
     = fst (generateBadgeMetadataUri url testId wallet title score total w)
  /\ store (snd (generateBadgeMetadataUri url testId wallet title score total w1))
     = ("stellar/badge-metadata/" ++ fileName,
        badge_metadata url testId wallet title score total (toISOString (now w)))
       :: remove_key ("stellar/badge-metadata/" ++ fileName) (store w).
Proof.
  intros Hup fileName w1.
  destruct (metadata_uri_v1_up url testId wallet title score total w Hup)
    as (Hr1 & Hs1 & Hn1 & Hd1).
  destruct (metadata_uri_v1_up url testId wallet title score total w1 Hd1)
    as (Hr2 & Hs2 & _ & _).
  split; [exact Hr1|]. split; [rewrite Hr2, Hr1; reflexivity|].
  rewrite Hs2. unfold w1. rewrite Hs1, Hn1, remove_key_cons_same. reflexivity.
Qed.

Ltac run_ledger :=
  cbv beta iota zeta delta [try_catch bind log ret throw rpc_call new_contract submit_and_confirm
                            Date_now random36 get_transaction sleep];
  cbn [now rands logs rpc polls store storage_down badges fst snd].

(** Signed mint failures before confirmation: with no contract id it
    fails before any ledger call; an account lookup failure, a simulation
    error or a send status [ERROR] each give their own
    ["NFT minting failed: ..."] message, with no polling and no waiting. *)
Theorem signed_mint_early_failures srv receiver testId uri kp w :
  (fst (mintBadgeNFT srv None receiver testId uri (Some kp) w)
     = Throw "NFT minting failed: Invalid contract ID: undefined"
   /\ rpc (snd (mintBadgeNFT srv None receiver testId uri (Some kp) w)) = rpc w)
  /\ (forall c e, srv_getAccount srv kp = Throw e ->
      fst (mintBadgeNFT srv (Some c) receiver testId uri (Some kp) w) = Throw ("NFT minting failed: " ++ e)
      /\ rpc (snd (mintBadgeNFT srv (Some c) receiver testId uri (Some kp) w)) = "getAccount" :: rpc w)
  /\ (forall c e, srv_getAccount srv kp = Ok tt ->
      srv_simulate srv c "mint" [receiver; uri] = Ok (SimError e) ->
      fst (mintBadgeNFT srv (Some c) receiver testId uri (Some kp) w)
        = Throw ("NFT minting failed: Simulation failed: " ++ e)
      /\ rpc (snd (mintBadgeNFT srv (Some c) receiver testId uri (Some kp) w))
         = "simulateTransaction" :: "getAccount" :: rpc w
      /\ polls (snd (mintBadgeNFT srv (Some c) receiver testId uri (Some kp) w)) = polls w)
  /\ (forall c x h err, srv_getAccount srv kp = Ok tt ->
      srv_simulate srv c "mint" [receiver; uri] = Ok (SimOk x) ->
      srv_send srv c "mint" [receiver; uri] = Ok (mkSend ERROR h err) ->
      fst (mintBadgeNFT srv (Some c) receiver testId uri (Some kp) w)
        = Throw ("NFT minting failed: Transaction failed: " ++ err)
      /\ rpc (snd (mintBadgeNFT srv (Some c) receiver testId uri (Some kp) w))
         = "sendTransaction" :: "simulateTransaction" :: "getAccount" :: rpc w
      /\ polls (snd (mintBadgeNFT srv (Some c) receiver testId uri (Some kp) w)) = polls w
      /\ now (snd (mintBadgeNFT srv (Some c) receiver testId uri (Some kp) w)) = now w).
Proof.
  unfold mintBadgeNFT. split; [|split; [|split]].
  - run_ledger. split; reflexivity.
  - intros c e Ha. run_ledger. rewrite Ha. split; reflexivity.
  - intros c e Ha Hs. run_ledger. rewrite Ha, Hs. repeat split; reflexivity.
  - intros c x h err Ha Hs Hsend. run_ledger. rewrite Ha, Hs, Hsend. repeat split; reflexivity.
Qed.

(** Signed registration failures before confirmation: an account lookup
    failure, a simulation error or a send status [ERROR] each give their
    own ["Blockchain registration failed: ..."] message, with no polling
    and no waiting. *)
Theorem signed_register_early_failures srv registry testId creator cid kp w :
  (forall e, srv_getAccount srv kp = Throw e ->
      fst (registerTestOnChain_signed srv registry testId creator cid (Some kp) w)
        = Throw ("Blockchain registration failed: " ++ e)
      /\ rpc (snd (registerTestOnChain_signed srv registry testId creator cid (Some kp) w))
         = "getAccount" :: rpc w)
  /\ (forall e, srv_getAccount srv kp = Ok tt ->
      srv_simulate srv registry "register_test" [testId; creator; cid] = Ok (SimError e) ->
      fst (registerTestOnChain_signed srv registry testId creator cid (Some kp) w)
        = Throw ("Blockchain registration failed: Simulation failed: " ++ e)
      /\ rpc (snd (registerTestOnChain_signed srv registry testId creator cid (Some kp) w))
         = "simulateTransaction" :: "getAccount" :: rpc w
      /\ polls (snd (registerTestOnChain_signed srv registry testId creator cid (Some kp) w)) = polls w)
  /\ (forall x h err, srv_getAccount srv kp = Ok tt ->
      srv_simulate srv registry "register_test" [testId; creator; cid] = Ok (SimOk x) ->
      srv_send srv registry "register_test" [testId; creator; cid] = Ok (mkSend ERROR h err) ->
      fst (registerTestOnChain_signed srv registry testId creator cid (Some kp) w)
        = Throw ("Blockchain registration failed: Transaction failed: " ++ err)
      /\ rpc (snd (registerTestOnChain_signed srv registry testId creator cid (Some kp) w))
         = "sendTransaction" :: "simulateTransaction" :: "getAccount" :: rpc w
      /\ polls (snd (registerTestOnChain_signed srv registry testId creator cid (Some kp) w)) = polls w
      /\ now (snd (registerTestOnChain_signed srv registry testId creator cid (Some kp) w)) = now w).
Proof.
  unfold registerTestOnChain_signed. split; [|split].
  - intros e Ha. run_ledger. rewrite Ha. split; reflexivity.
  - intros e Ha Hs. run_ledger. rewrite Ha, Hs. repeat split; reflexivity.
  - intros x h err Ha Hs Hsend. run_ledger. rewrite Ha, Hs, Hsend. repeat split; reflexivity.
Qed.

Lemma wait_loop_pending_step srv n h :
  wait_loop srv (S n) h PENDING
  = (sleep 1000;; let* statusResponse := get_transaction srv h in
     wait_loop srv n h (get_status statusResponse)).
Proof. reflexivity. Qed.

(** A signed mint confirmed on the first poll returns the send hash and
    the decoded return value as token id (the placeholder
    [nft_<testId>_<now>] when there is no usable return value), after two
    [getTransaction] calls and one second of waiting. *)
Theorem signed_mint_confirmed srv c kp receiver testId uri x h err meta rv w :
  srv_getAccount srv kp = Ok tt ->
  srv_simulate srv c "mint" [receiver; uri] = Ok (SimOk x) ->
  srv_send srv c "mint" [receiver; uri] = Ok (mkSend PENDING h err) ->
  (forall i, srv_getTransaction srv i = Ok (mkGet SUCCESS meta rv)) ->
  let placeholder := JStr (placeholder_token_id testId (now w + 1000)) in
  let tokenId := if meta then match rv with
                              | Some (ScVal v) => v
                              | _ => placeholder
                              end
                 else placeholder in
  fst (mintBadgeNFT srv (Some c) receiver testId uri (Some kp) w) = Ok (mkMint true h tokenId uri)
  /\ rpc (snd (mintBadgeNFT srv (Some c) receiver testId uri (Some kp) w))
     = "getTransaction" :: "getTransaction" :: "sendTransaction" :: "simulateTransaction"
       :: "getAccount" :: rpc w
  /\ polls (snd (mintBadgeNFT srv (Some c) receiver testId uri (Some kp) w)) = polls w + 2
  /\ now (snd (mintBadgeNFT srv (Some c) receiver testId uri (Some kp) w)) = (now w + 1000)%N.
Proof.
  intros Ha Hs Hsend Hg placeholder tokenId.
  unfold mintBadgeNFT. run_ledger. rewrite Ha, Hs, Hsend. cbn [send_status send_hash].
  change (txstatus_eqb PENDING ERROR) with false. cbv iota beta.
  unfold maxAttempts. rewrite wait_loop_pending_step.
  run_ledger. rewrite Hg. cbn [get_status].
  rewrite wait_loop_final by discriminate. cbn [fst snd].
  change (negb (txstatus_eqb SUCCESS SUCCESS)) with false. cbv iota beta.
  cbn [now rands logs rpc polls store storage_down badges]. rewrite Hg.
  unfold extract_token_id, scValToNative. run_ledger. cbn [get_status get_resultMetaXdr get_returnValue].
  change (txstatus_eqb SUCCESS SUCCESS) with true. cbn [andb].
  subst placeholder tokenId.
  destruct meta; [destruct rv as [[v|]|]|]; cbv beta iota; cbn [fst snd rpc polls now];
    repeat split; try reflexivity; lia.
Qed.

(** A signed registration confirmed on the first poll returns the send
    hash and the test metadata stamped with the time after the one
    second of waiting. *)
Theorem signed_register_confirmed srv registry kp testId creator cid x h err g w :
  srv_getAccount srv kp = Ok tt ->
  srv_simulate srv registry "register_test" [testId; creator; cid] = Ok (SimOk x) ->
  srv_send srv registry "register_test" [testId; creator; cid] = Ok (mkSend PENDING h err) ->
  srv_getTransaction srv (polls w) = Ok g -> get_status g = SUCCESS ->
  registerTestOnChain_signed srv registry testId creator cid (Some kp) w
  = (Ok (mkReg true h (test_metadata (JStr testId) (JStr creator) (JStr cid) (now w + 1000))),
     mkWorld (now w + 1000) (rands w)
             (("TX Hash: " ++ h) :: "Test successfully registered on-chain"
              :: "Registering test on-chain..." :: logs w)
             ("getTransaction" :: "sendTransaction" :: "simulateTransaction" :: "getAccount" :: rpc w)
             (S (polls w)) (store w) (storage_down w) (badges w)).
Proof.
  intros Ha Hs Hsend Hg Hst.
  unfold registerTestOnChain_signed. run_ledger. rewrite Ha, Hs, Hsend. cbn [send_status send_hash].
  change (txstatus_eqb PENDING ERROR) with false. cbv iota beta.
  unfold maxAttempts. rewrite wait_loop_pending_step.
  run_ledger. rewrite Hg, Hst.
  rewrite wait_loop_final by discriminate. cbn [fst snd].
  change (negb (txstatus_eqb SUCCESS SUCCESS)) with false. cbv iota beta.
  run_ledger. reflexivity.
Qed.

Definition read_only (w w' : world) : Prop :=
  (exists l, rpc w' = (l ++ rpc w)%list
             /\ Forall (fun n => n = "getAccount" \/ n = "simulateTransaction") l)
  /\ polls w' = polls w /\ now w' = now w /\ store w' = store w /\ badges w' = badges w.

Lemma read_only_refl w : read_only w w.
Proof. split; [exists []; split; [reflexivity|constructor]|repeat split]. Qed.

Lemma read_only_trans w1 w2 w3 : read_only w1 w2 -> read_only w2 w3 -> read_only w1 w3.
Proof.
  intros [(l1 & E1 & F1) (P1 & N1 & S1 & B1)] [(l2 & E2 & F2) (P2 & N2 & S2 & B2)].
  split; [|repeat split; congruence].
  exists (l2 ++ l1)%list. split; [rewrite E2, E1, app_assoc; reflexivity|].
  apply Forall_app; split; assumption.
Qed.

Lemma log_read_only s : keeps read_only (log s).
Proof. intro w; split; [exists []; split; [reflexivity|constructor]|repeat split]. Qed.

Lemma rpc_call_read_only {A} name (r : res A) :
  name = "getAccount" \/ name = "simulateTransaction" -> keeps read_only (rpc_call name r).
Proof.
  intros Hn w. split; [|repeat split].
  exists [name]. split; [reflexivity|]. constructor; [exact Hn|constructor].
Qed.

Lemma scValToNative_read_only v : keeps read_only (scValToNative v).
Proof. destruct v; intro w; apply read_only_refl. Qed.

Lemma new_contract_read_only c : keeps read_only (new_contract c).
Proof. destruct c; intro w; apply read_only_refl. Qed.

Lemma get_prop_read_only v k : keeps read_only (get_prop v k).
Proof. destruct v; intro w; apply read_only_refl. Qed.

#[export] Hint Resolve read_only_refl read_only_trans log_read_only scValToNative_read_only
  new_contract_read_only get_prop_read_only : keeps.

Lemma read_account_read_only srv key : keeps read_only (read_account srv key).
Proof.
  unfold read_account. pose proof read_only_refl; pose proof read_only_trans.
  apply keeps_try_catch; [assumption|assumption| |intro; auto with keeps].
  apply rpc_call_read_only; left; reflexivity.
Qed.

Lemma map_items_read_only items : keeps read_only (map_items items).
Proof.
  pose proof read_only_refl; pose proof read_only_trans.
  induction items as [|it items IH]; simpl; keeps_tac.
Qed.

#[export] Hint Resolve read_account_read_only map_items_read_only : keeps.

(** The read queries only call [getAccount] and [simulateTransaction]:
    they never send or poll a transaction, never wait, and leave both
    stores as they were; [getNFTMetadata] without a contract id makes no
    ledger call at all. *)
Theorem read_queries_read_only srv bc registry key testId tokenId w :
  read_only w (snd (getTestFromChain srv registry key testId w))
  /\ read_only w (snd (listTestsFromChain srv registry key w))
  /\ read_only w (snd (getNFTMetadata srv bc key tokenId w))
  /\ (bc = None -> rpc (snd (getNFTMetadata srv bc key tokenId w)) = rpc w).
Proof.
  pose proof read_only_refl; pose proof read_only_trans.
  assert (Sim : forall {A} (r : res A), keeps read_only (rpc_call "simulateTransaction" r)).
  { intros; apply rpc_call_read_only; right; reflexivity. }
  split; [|split; [|split]].
  - revert w. change (keeps read_only (getTestFromChain srv registry key testId)).
    unfold getTestFromChain. keeps_tac; apply Sim; auto.
  - revert w. change (keeps read_only (listTestsFromChain srv registry key)).
    unfold listTestsFromChain. keeps_tac; apply Sim; auto.
  - revert w. change (keeps read_only (getNFTMetadata srv bc key tokenId)).
    unfold getNFTMetadata. keeps_tac; apply Sim; auto.
  - intros ->. reflexivity.
Qed.

Definition rename_test (v : jsval) : jsval :=
  match v with
  | JObj fs => JObj [("testId", lookup fs "test_id"); ("creator", lookup fs "creator");
                     ("metadataCid", lookup fs "metadata_cid"); ("createdAt", lookup fs "created_at")]
  | _ => JUndef
  end.

Lemma map_items_objects items w :
  Forall (fun it => exists fs, it = JObj fs) items ->
  map_items items w = (Ok (map rename_test items), w).
Proof.
  induction 1 as [|it items [fs ->] _ IH]; [reflexivity|].
  simpl. unfold bind, get_prop, ret at 1 2 3 4. rewrite IH. reflexivity.
Qed.

Lemma map_items_null items w :
  In JNull items -> exists e, fst (map_items items w) = Throw e.
Proof.
  revert w; induction items as [|it items IH]; intros w Hin; [destruct Hin|].
  destruct Hin as [->|Hin].
  - eexists. reflexivity.
  - simpl. unfold bind at 1.
    destruct it; try (eexists; reflexivity);
      cbv beta iota zeta delta [get_prop bind ret];
      (destruct (IH w Hin) as [e He]; destruct (map_items items w) as [[l0|e0] w0];
       simpl in He; [discriminate | eexists; reflexivity]).
Qed.

(** [getTestFromChain] and [listTestsFromChain] rename the contract's
    fields ([test_id] to [testId], ...); one [null] item makes the whole
    list empty (the error is logged), and a result that is not an array
    gives the empty list. *)
Theorem chain_test_decoding srv registry key testId w :
  (forall fs, srv_simulate srv registry "get_test" [testId] = Ok (SimOk (Some (ScVal (JObj fs)))) ->
     fst (getTestFromChain srv registry key testId w) = Ok (rename_test (JObj fs)))
  /\ (forall items, srv_simulate srv registry "list_tests" [] = Ok (SimOk (Some (ScVal (JArr items)))) ->
      (Forall (fun it => exists fs, it = JObj fs) items ->
       fst (listTestsFromChain srv registry key w) = Ok (JArr (map rename_test items)))
      /\ (In JNull items ->
          fst (listTestsFromChain srv registry key w) = Ok (JArr [])
          /\ In "Error listing tests from chain" (logs (snd (listTestsFromChain srv registry key w)))))
  /\ (forall v, srv_simulate srv registry "list_tests" [] = Ok (SimOk (Some (ScVal v))) ->
      (forall items, v <> JArr items) ->
      fst (listTestsFromChain srv registry key w) = Ok (JArr [])).
Proof.
  split; [|split].
  - intros fs Hs. unfold getTestFromChain, read_account, new_contract, scValToNative.
    cbv beta iota zeta delta [try_catch bind rpc_call ret get_prop log].
    destruct (srv_getAccount srv key); cbn [rpc]; rewrite Hs; reflexivity.
  - intros items Hs. unfold listTestsFromChain, read_account, new_contract, scValToNative.
    split.
    + intro Hall.
      cbv beta iota zeta delta [try_catch bind rpc_call ret log].
      destruct (srv_getAccount srv key); cbn [rpc]; rewrite Hs;
        rewrite map_items_objects by exact Hall; reflexivity.
    + intro Hn.
      cbv beta iota zeta delta [try_catch bind rpc_call ret log].
      destruct (srv_getAccount srv key); cbn [rpc]; rewrite Hs.
      all: match goal with |- context [map_items ?its ?w'] =>
        destruct (map_items_null its w' Hn) as [e He];
        destruct (map_items its w') as [[l0|e0] w0] end.
      all: simpl in He; try discriminate He.
      all: split; [reflexivity| left; reflexivity].
  - intros v Hs Hv. unfold listTestsFromChain, read_account, new_contract, scValToNative.
    cbv beta iota zeta delta [try_catch bind rpc_call ret log].
    destruct (srv_getAccount srv key); cbn [rpc]; rewrite Hs;
      destruct v; try reflexivity; exfalso; eapply Hv; reflexivity.
Qed.

(** ** Grouping *)

Lemma fold_left_add_sum {X} (f : X -> nat) (l : list X) (n : nat) :
  fold_left (fun sum x => sum + f x) l n = n + list_sum (map f l).
Proof.
  revert n; induction l as [|x l IH]; intro n; simpl; [lia|]. rewrite IH. lia.
Qed.

Lemma list_sum_perm (l l' : list nat) : Permutation l l' -> list_sum l = list_sum l'.
Proof. induction 1; simpl; lia. Qed.

Section GroupLemmas.

Variable lc : string -> string -> Z.

Lemma insert_group_perm g l : Permutation (insert_group lc g l) (g :: l).
Proof.
  induction l as [|h l IH]; simpl; [reflexivity|].
  destruct (lc (g_company g) (g_company h) <? 0)%Z; [reflexivity|].
  rewrite IH. apply perm_swap.
Qed.

Lemma sort_groups_perm l : Permutation (sort_groups lc l) l.
Proof.
  unfold sort_groups.
  assert (G : forall acc, Permutation (fold_left (fun acc g => insert_group lc g acc) l acc)
                                      (l ++ acc)%list).
  { induction l as [|g l IH]; intro acc; simpl; [reflexivity|].
    rewrite IH, insert_group_perm. symmetry. apply Permutation_middle. }
  rewrite G, app_nil_r. reflexivity.
Qed.

End GroupLemmas.

Definition sumB (gs : list grouped) : nat := list_sum (map (fun g => length (g_badges g)) gs).
Definition sumP (gs : list grouped) : nat :=
  list_sum (map (fun g => length (g_practiceAttempts g)) gs).

Lemma add_badge_sums c b gs : sumB (add_badge c b gs) = S (sumB gs) /\ sumP (add_badge c b gs) = sumP gs.
Proof.
  unfold sumB, sumP. induction gs as [|g gs IH]; simpl; [split; reflexivity|].
  destruct (String.eqb (g_company g) c); simpl.
  - rewrite length_app. simpl. split; lia.
  - destruct IH as [I1 I2]. rewrite I1, I2. split; lia.
Qed.

Lemma add_attempt_sums c a gs : sumB (add_attempt c a gs) = sumB gs /\ sumP (add_attempt c a gs) = S (sumP gs).
Proof.
  unfold sumB, sumP. induction gs as [|g gs IH]; simpl; [split; reflexivity|].
  destruct (String.eqb (g_company g) c); simpl.
  - rewrite length_app. simpl. split; lia.
  - destruct IH as [I1 I2]. rewrite I1, I2. split; lia.
Qed.

Lemma fold_add_badge_sums (l : list (badge * option test_row)) gs :
  sumB (fold_left (fun gs bt => add_badge (company_of (snd bt)) bt gs) l gs) = sumB gs + length l
  /\ sumP (fold_left (fun gs bt => add_badge (company_of (snd bt)) bt gs) l gs) = sumP gs.
Proof.
  revert gs; induction l as [|x l IH]; intro gs; simpl; [split; lia|].
  destruct (IH (add_badge (company_of (snd x)) x gs)) as [I1 I2].
  destruct (add_badge_sums (company_of (snd x)) x gs) as [A1 A2]. split; lia.
Qed.

Lemma fold_add_attempt_sums (l : list (attempt_row * option test_row)) gs :
  sumB (fold_left (fun gs at' => add_attempt (company_of (snd at')) at' gs) l gs) = sumB gs
  /\ sumP (fold_left (fun gs at' => add_attempt (company_of (snd at')) at' gs) l gs) = sumP gs + length l.
Proof.
  revert gs; induction l as [|x l IH]; intro gs; simpl; [split; lia|].
  destruct (IH (add_attempt (company_of (snd x)) x gs)) as [I1 I2].
  destruct (add_attempt_sums (company_of (snd x)) x gs) as [A1 A2]. split; lia.
Qed.

Lemma dedup_first_nil seen l : dedup_first seen l = [] -> forall x, In x l -> In x seen.
Proof.
  revert seen; induction l as [|y l IH]; intros seen H x Hx; [destruct Hx|].
  simpl in H. destruct (existsb (String.eqb y) seen) eqn:E; [|discriminate].
  destruct Hx as [<-|Hx]; [|exact (IH seen H x Hx)].
  apply existsb_exists in E. destruct E as (z & Hz & Ez). apply String.eqb_eq in Ez. subst; exact Hz.
Qed.

Lemma totals_sums gs : totalBadges gs = sumB gs /\ totalPractice gs = sumP gs.
Proof. unfold totalBadges, totalPractice. rewrite !fold_left_add_sum. split; reflexivity. Qed.

Lemma sort_groups_sums lc gs : sumB (sort_groups lc gs) = sumB gs /\ sumP (sort_groups lc gs) = sumP gs.
Proof.
  unfold sumB, sumP. split; apply list_sum_perm, Permutation_map, sort_groups_perm.
Qed.

(** The dashboard totals count every badge and every practice attempt
    exactly once, whatever the locale comparison. *)
Theorem badge_totals lc tests badgesData attemptsData :
  totalBadges (group_badges lc tests badgesData attemptsData) = length badgesData
  /\ totalPractice (group_badges lc tests badgesData attemptsData) = length attemptsData.
Proof.
  rewrite !(proj1 (totals_sums _)), !(proj2 (totals_sums _)).
  unfold group_badges. destruct (Nat.ltb 0 _) eqn:E.
  - rewrite !(proj1 (sort_groups_sums _ _)), !(proj2 (sort_groups_sums _ _)).
    rewrite (proj1 (fold_add_attempt_sums _ _)), (proj2 (fold_add_attempt_sums _ _)).
    rewrite (proj1 (fold_add_badge_sums _ _)), (proj2 (fold_add_badge_sums _ _)).
    rewrite !length_map. split; reflexivity.
  - apply Nat.ltb_ge in E. apply Nat.le_0_r, length_zero_iff_nil in E.
    pose proof (dedup_first_nil _ _ E) as H.
    destruct badgesData as [|b bs]; [|destruct (H (b_test_id b) (or_introl eq_refl))].
    destruct attemptsData as [|a as_]; [|destruct (H (a_test_id a) (or_introl eq_refl))].
    split; reflexivity.
Qed.

Definition holds_badge (gs : list grouped) (c : string) (x : badge * option test_row) : Prop :=
  exists g, In g gs /\ g_company g = c /\ In x (g_badges g).
Definition holds_attempt (gs : list grouped) (c : string) (x : attempt_row * option test_row) : Prop :=
  exists g, In g gs /\ g_company g = c /\ In x (g_practiceAttempts g).

Lemma add_badge_companies c x gs :
  forall c', In c' (map g_company (add_badge c x gs)) <-> c' = c \/ In c' (map g_company gs).
Proof.
  induction gs as [|g gs IH]; intro c'; simpl;
    [split; intros [H|H]; solve [left; congruence | destruct H]|].
  destruct (String.eqb (g_company g) c) eqn:E; simpl.
  - apply String.eqb_eq in E. split; [tauto|]. intros [->|H]; [left; exact E|exact H].
  - rewrite IH. tauto.
Qed.

Lemma add_attempt_companies c x gs :
  forall c', In c' (map g_company (add_attempt c x gs)) <-> c' = c \/ In c' (map g_company gs).
Proof.
  induction gs as [|g gs IH]; intro c'; simpl;
    [split; intros [H|H]; solve [left; congruence | destruct H]|].
  destruct (String.eqb (g_company g) c) eqn:E; simpl.
  - apply String.eqb_eq in E. split; [tauto|]. intros [->|H]; [left; exact E|exact H].
  - rewrite IH. tauto.
Qed.

Lemma add_badge_nodup c x gs : NoDup (map g_company gs) -> NoDup (map g_company (add_badge c x gs)).
Proof.
  induction gs as [|g gs IH]; simpl; intro H; [constructor; [tauto|constructor]|].
  inversion H as [|? ? Hn Hd]; subst.
  destruct (String.eqb (g_company g) c) eqn:E; simpl; [exact H|].
  constructor; [|exact (IH Hd)].
  rewrite add_badge_companies. apply String.eqb_neq in E. intros [Hc|Hc]; [exact (E Hc)|exact (Hn Hc)].
Qed.

Lemma add_attempt_nodup c x gs : NoDup (map g_company gs) -> NoDup (map g_company (add_attempt c x gs)).
Proof.
  induction gs as [|g gs IH]; simpl; intro H; [constructor; [tauto|constructor]|].
  inversion H as [|? ? Hn Hd]; subst.
  destruct (String.eqb (g_company g) c) eqn:E; simpl; [exact H|].
  constructor; [|exact (IH Hd)].
  rewrite add_attempt_companies. apply String.eqb_neq in E. intros [Hc|Hc]; [exact (E Hc)|exact (Hn Hc)].
Qed.

Lemma add_badge_holds_new c x gs : holds_badge (add_badge c x gs) c x.
Proof.
  induction gs as [|g gs IH]; simpl.
  - exists (mkGroup c [x] []). simpl. tauto.
  - destruct (String.eqb (g_company g) c) eqn:E.
    + apply String.eqb_eq in E.
      exists (mkGroup (g_company g) (g_badges g ++ [x]) (g_practiceAttempts g)).
      simpl. split; [left; reflexivity|]. split; [exact E|]. apply in_or_app; right; left; reflexivity.
    + destruct IH as (g' & H1 & H2 & H3). exists g'. simpl. tauto.
Qed.

Lemma add_badge_holds_old c x gs c' y : holds_badge gs c' y -> holds_badge (add_badge c x gs) c' y.
Proof.
  induction gs as [|g gs IH]; intros (g' & H1 & H2 & H3); [destruct H1|]. simpl.
  destruct H1 as [->|H1].
  - destruct (String.eqb (g_company g') c).
    + exists (mkGroup (g_company g') (g_badges g' ++ [x]) (g_practiceAttempts g')).
      simpl. split; [left; reflexivity|]. split; [exact H2|]. apply in_or_app; left; exact H3.
    + exists g'. simpl. tauto.
  - destruct (String.eqb (g_company g) c).
    + exists g'. simpl. tauto.
    + destruct IH as (g'' & I1 & I2 & I3); [exists g'; tauto|]. exists g''. simpl. tauto.
Qed.

Lemma add_attempt_holds_badge c x gs c' y : holds_badge gs c' y -> holds_badge (add_attempt c x gs) c' y.
Proof.
  induction gs as [|g gs IH]; intros (g' & H1 & H2 & H3); [destruct H1|]. simpl.
  destruct H1 as [->|H1].
  - destruct (String.eqb (g_company g') c).
    + exists (mkGroup (g_company g') (g_badges g') (g_practiceAttempts g' ++ [x])).
      simpl. tauto.
    + exists g'. simpl. tauto.
  - destruct (String.eqb (g_company g) c).
    + exists g'. simpl. tauto.
    + destruct IH as (g'' & I1 & I2 & I3); [exists g'; tauto|]. exists g''. simpl. tauto.
Qed.

Lemma add_attempt_holds_new c x gs : holds_attempt (add_attempt c x gs) c x.
Proof.
  induction gs as [|g gs IH]; simpl.
  - exists (mkGroup c [] [x]). simpl. tauto.
  - destruct (String.eqb (g_company g) c) eqn:E.
    + apply String.eqb_eq in E.
      exists (mkGroup (g_company g) (g_badges g) (g_practiceAttempts g ++ [x])).
      simpl. split; [left; reflexivity|]. split; [exact E|]. apply in_or_app; right; left; reflexivity.
    + destruct IH as (g' & H1 & H2 & H3). exists g'. simpl. tauto.
Qed.

Lemma add_attempt_holds_old c x gs c' y : holds_attempt gs c' y -> holds_attempt (add_attempt c x gs) c' y.
Proof.
  induction gs as [|g gs IH]; intros (g' & H1 & H2 & H3); [destruct H1|]. simpl.
  destruct H1 as [->|H1].
  - destruct (String.eqb (g_company g') c).
    + exists (mkGroup (g_company g') (g_badges g') (g_practiceAttempts g' ++ [x])).
      simpl. split; [left; reflexivity|]. split; [exact H2|]. apply in_or_app; left; exact H3.
    + exists g'. simpl. tauto.
  - destruct (String.eqb (g_company g) c).
    + exists g'. simpl. tauto.
    + destruct IH as (g'' & I1 & I2 & I3); [exists g'; tauto|]. exists g''. simpl. tauto.
Qed.

Lemma fold_add_badge_holds (l : list (badge * option test_row)) gs :
  (forall c y, holds_badge gs c y -> holds_badge (fold_left (fun gs bt => add_badge (company_of (snd bt)) bt gs) l gs) c y)
  /\ (forall x, In x l -> holds_badge (fold_left (fun gs bt => add_badge (company_of (snd bt)) bt gs) l gs) (company_of (snd x)) x)
  /\ (NoDup (map g_company gs) -> NoDup (map g_company (fold_left (fun gs bt => add_badge (company_of (snd bt)) bt gs) l gs))).
Proof.
  revert gs; induction l as [|x l IH]; intro gs; simpl.
  - split; [tauto|]. split; [tauto|tauto].
  - destruct (IH (add_badge (company_of (snd x)) x gs)) as (I1 & I2 & I3).
    split; [intros c y H; apply I1, add_badge_holds_old, H|].
    split; [|intro H; apply I3, add_badge_nodup, H].
    intros x' [<-|Hx]; [apply I1, add_badge_holds_new|apply I2, Hx].
Qed.

Lemma fold_add_attempt_holds (l : list (attempt_row * option test_row)) gs :
  (forall c y, holds_badge gs c y -> holds_badge (fold_left (fun gs at' => add_attempt (company_of (snd at')) at' gs) l gs) c y)
  /\ (forall c y, holds_attempt gs c y -> holds_attempt (fold_left (fun gs at' => add_attempt (company_of (snd at')) at' gs) l gs) c y)
  /\ (forall x, In x l -> holds_attempt (fold_left (fun gs at' => add_attempt (company_of (snd at')) at' gs) l gs) (company_of (snd x)) x)
  /\ (NoDup (map g_company gs) -> NoDup (map g_company (fold_left (fun gs at' => add_attempt (company_of (snd at')) at' gs) l gs))).
Proof.
  revert gs; induction l as [|x l IH]; intro gs; simpl.
  - tauto.
  - destruct (IH (add_attempt (company_of (snd x)) x gs)) as (I1 & I2 & I3 & I4).
    split; [intros c y H; apply I1, add_attempt_holds_badge, H|].
    split; [intros c y H; apply I2, add_attempt_holds_old, H|].
    split; [|intro H; apply I4, add_attempt_nodup, H].
    intros x' [<-|Hx]; [apply I2, add_attempt_holds_new|apply I3, Hx].
Qed.

Lemma find_test_filter (P : test_row -> bool) ts id :
  (forall t, t_id t = id -> P t = true) -> find_test (filter P ts) id = find_test ts id.
Proof.
  intro HP. induction ts as [|t ts IH]; simpl; [reflexivity|].
  destruct (String.eqb (t_id t) id) eqn:E.
  - apply String.eqb_eq in E. rewrite (HP t E). simpl. rewrite (proj2 (String.eqb_eq _ _) E). reflexivity.
  - destruct (P t); simpl; [rewrite E|]; exact IH.
Qed.

Lemma dedup_first_in seen l x : In x l -> In x seen \/ In x (dedup_first seen l).
Proof.
  revert seen; induction l as [|y l IH]; intros seen Hx; [destruct Hx|]. simpl.
  destruct (existsb (String.eqb y) seen) eqn:E.
  - destruct Hx as [<-|Hx]; [|exact (IH seen Hx)].
    apply existsb_exists in E. destruct E as (z & Hz & Ez). apply String.eqb_eq in Ez. subst; left; exact Hz.
  - destruct Hx as [<-|Hx]; [right; left; reflexivity|].
    destruct (IH (y :: seen) Hx) as [[<-|H]|H]; [right; left; reflexivity|left; exact H|right; right; exact H].
Qed.

Lemma all_ids_filter (ids : list string) tests id :
  In id ids ->
  find_test (filter (fun t => existsb (String.eqb (t_id t)) ids) tests) id = find_test tests id.
Proof.
  intro H. apply find_test_filter. intros t <-. apply existsb_exists. exists (t_id t).
  split; [exact H|apply String.eqb_refl].
Qed.

Lemma perm_holds_badge gs gs' c x : Permutation gs gs' -> holds_badge gs c x -> holds_badge gs' c x.
Proof. intros P (g & H1 & H2 & H3). exists g. split; [exact (Permutation_in _ P H1)|tauto]. Qed.
Lemma perm_holds_attempt gs gs' c x : Permutation gs gs' -> holds_attempt gs c x -> holds_attempt gs' c x.
Proof. intros P (g & H1 & H2 & H3). exists g. split; [exact (Permutation_in _ P H1)|tauto]. Qed.

(** The dashboard groups have distinct company names, and each badge and
    practice attempt sits, with its test, in the group of its test's
    company (["Independent"] without one). *)
Theorem badge_grouping lc tests badgesData attemptsData :
  NoDup (map g_company (group_badges lc tests badgesData attemptsData))
  /\ (forall b, In b badgesData ->
      exists g, In g (group_badges lc tests badgesData attemptsData)
        /\ g_company g = company_of (find_test tests (b_test_id b))
        /\ In (b, find_test tests (b_test_id b)) (g_badges g))
  /\ (forall a, In a attemptsData ->
      exists g, In g (group_badges lc tests badgesData attemptsData)
        /\ g_company g = company_of (find_test tests (a_test_id a))
        /\ In (a, find_test tests (a_test_id a)) (g_practiceAttempts g)).
Proof.
  unfold group_badges.
  set (ids := dedup_first [] (map b_test_id badgesData ++ map a_test_id attemptsData)%list).
  destruct (Nat.ltb 0 (length ids)) eqn:E.
  - set (testsData := filter (fun t => existsb (String.eqb (t_id t)) ids) tests).
    set (bl := map (fun b => (b, find_test testsData (b_test_id b))) badgesData).
    set (al := map (fun a => (a, find_test testsData (a_test_id a))) attemptsData).
    set (g1 := fold_left (fun gs bt => add_badge (company_of (snd bt)) bt gs) bl []).
    set (g2 := fold_left (fun gs at' => add_attempt (company_of (snd at')) at' gs) al g1).
    pose proof (sort_groups_perm lc g2) as P. apply Permutation_sym in P.
    destruct (fold_add_badge_holds bl []) as (B1 & B2 & B3).
    destruct (fold_add_attempt_holds al g1) as (A1 & A2 & A3 & A4).
    assert (Hid : forall id, In id (map b_test_id badgesData ++ map a_test_id attemptsData)%list ->
                  find_test testsData id = find_test tests id).
    { intros id Hin. apply all_ids_filter. destruct (dedup_first_in [] _ id Hin) as [[]|H]; exact H. }
    split; [|split].
    + eapply Permutation_NoDup; [apply Permutation_map, P|]. apply A4, B3. constructor.
    + intros b Hb. rewrite <- Hid by (apply in_or_app; left; apply in_map, Hb).
      apply (perm_holds_badge _ _ _ _ P), A1.
      apply (B2 (b, find_test testsData (b_test_id b))). apply (in_map (fun b => (b, _)) _ _ Hb).
    + intros a Ha. rewrite <- Hid by (apply in_or_app; right; apply in_map, Ha).
      apply (perm_holds_attempt _ _ _ _ P).
      apply (A3 (a, find_test testsData (a_test_id a))). apply (in_map (fun a => (a, _)) _ _ Ha).
  - apply Nat.ltb_ge, Nat.le_0_r, length_zero_iff_nil in E.
    pose proof (dedup_first_nil _ _ E) as H.
    split; [constructor|].
    split; intros x Hx; exfalso.
    + apply (H (b_test_id x)). apply in_or_app; left; apply in_map, Hx.
    + apply (H (a_test_id x)). apply in_or_app; right; apply in_map, Hx.
Qed.

(** ** Profile *)

Lemma remove_key_absent k st : key_exists k st = false -> remove_key k st = st.
Proof.
  induction st as [|[k' v] st IH]; simpl; [reflexivity|].
  intro H. apply Bool.orb_false_iff in H. destruct H as [H1 H2].
  rewrite H1. simpl. rewrite (IH H2). reflexivity.
Qed.

Ltac run_profile :=
  cbv beta iota zeta delta [handleUploadBadge handleDeleteBadge fetchCustomBadges handleFileChange
      pbind pget ptry pret pthrow lift setError setSuccess setBadgeName setSvgFile setCustomBadges
      db_insert db_delete db_select_user storage_remove storage_upload
      try_catch bind ret throw log Date_now get_world set_store];
  cbn [p_world p_table p_next_id p_db_down p_badgeName p_svgFile p_error p_success p_customBadges
       now rands logs rpc polls store storage_down badges fst snd negb andb orb].

Lemma upload_badge_state url userId s f :
  String.eqb (trim (p_badgeName s)) "" = false ->
  p_svgFile s = Some f ->
  storage_down (p_world s) = false ->
  key_exists ("stellar/badges/" ++ userId ++ "_" ++ str_N (now (p_world s)) ++ ".svg")
             (store (p_world s)) = false ->
  p_db_down s = false ->
  let path := "badges/" ++ userId ++ "_" ++ str_N (now (p_world s)) ++ ".svg" in
  let row := mkCustom (str_N (p_next_id s)) userId (trim (p_badgeName s))
                      (getPublicUrl url "stellar" path) in
  handleUploadBadge url userId s
  = (Ok tt, mkProfile (mkWorld (now (p_world s)) (rands (p_world s))
                               ("Fetching badges for user" :: "Uploading badge for user"
                                :: logs (p_world s))
                               (rpc (p_world s)) (polls (p_world s))
                               (("stellar/" ++ path, f_content f) :: store (p_world s))
                               false (badges (p_world s)))
                      (p_table s ++ [row])%list (N.succ (p_next_id s)) false "" None None
                      (Some "Badge created successfully!")
                      (List.rev (filter (fun r => String.eqb (cb_user_id r) userId)
                                        (p_table s ++ [row])%list))).
Proof.
  intros Hn Hf Hup Hkey Hdb path row.
  subst row path.
  destruct s as [w table next down name file err succ cbs];
    destruct w as [now0 rands0 logs0 rpc0 polls0 store0 sdown0 badges0];
    cbn [p_world p_table p_next_id p_db_down p_badgeName p_svgFile now store storage_down] in *; subst.
  run_profile. rewrite Hn. simpl in Hkey |- *. rewrite Hkey. simpl.
  rewrite (remove_key_absent _ _ Hkey). reflexivity.
Qed.

(** A successful upload stores the SVG at
    [stellar/badges/<userId>_<now>.svg], appends one row with the trimmed
    name and the public URL, resets the form and shows the user's badges
    newest first. *)
Theorem upload_badge_success url userId s f :
  String.eqb (trim (p_badgeName s)) "" = false ->
  p_svgFile s = Some f ->
  storage_down (p_world s) = false ->
  key_exists ("stellar/badges/" ++ userId ++ "_" ++ str_N (now (p_world s)) ++ ".svg")
             (store (p_world s)) = false ->
  p_db_down s = false ->
  let path := "badges/" ++ userId ++ "_" ++ str_N (now (p_world s)) ++ ".svg" in
  let row := mkCustom (str_N (p_next_id s)) userId (trim (p_badgeName s))
                      (getPublicUrl url "stellar" path) in
  let s' := snd (handleUploadBadge url userId s) in
  fst (handleUploadBadge url userId s) = Ok tt
  /\ p_table s' = (p_table s ++ [row])%list
  /\ store (p_world s') = ("stellar/" ++ path, f_content f) :: store (p_world s)
  /\ p_next_id s' = N.succ (p_next_id s)
  /\ p_success s' = Some "Badge created successfully!" /\ p_error s' = None
  /\ p_badgeName s' = "" /\ p_svgFile s' = None
  /\ p_customBadges s' = List.rev (filter (fun r => String.eqb (cb_user_id r) userId)
                                          (p_table s ++ [row])%list).
Proof.
  intros Hn Hf Hup Hkey Hdb path row s'. subst s'.
  rewrite (upload_badge_state url userId s f Hn Hf Hup Hkey Hdb). repeat split; reflexivity.
Qed.

Lemma prefix_app_long (p x y : string) :
  String.length p <= String.length x -> String.prefix p (x ++ y) = String.prefix p x.
Proof.
  revert x; induction p as [|a p IH]; intros x H; [destruct x; [destruct y|]; reflexivity|].
  destruct x as [|b x]; simpl in H; [lia|]. simpl.
  destruct (Ascii.ascii_dec a b); [apply IH; lia|reflexivity].
Qed.

Lemma split_go_plain sep B cur :
  sep <> "" -> includes B sep = false -> split_go sep B 0 cur = [cur ++ B].
Proof.
  intro Hsep. revert cur; induction B as [|c B IH]; intros cur H.
  - rewrite string_app_nil_r. reflexivity.
  - simpl in H. apply Bool.orb_false_iff in H. destruct H as [H1 H2].
    simpl. rewrite H1. rewrite (IH _ H2), string_app_assoc. reflexivity.
Qed.

Lemma split_go_stellar A B cur :
  includes (A ++ "/stellar") "/stellar/" = false ->
  split_go "/stellar/" (A ++ "/stellar/" ++ B) 0 cur = (cur ++ A) :: split_go "/stellar/" B 0 "".
Proof.
  revert cur; induction A as [|c A IH]; intros cur H.
  - assert (P : forall z, String.prefix "" z = true) by (intros []; reflexivity).
    simpl. rewrite P, string_app_nil_r. reflexivity.
  - change (String c A ++ "/stellar") with (String c (A ++ "/stellar")) in H.
    change (includes (String c (A ++ "/stellar")) "/stellar/")
      with (String.prefix "/stellar/" (String c (A ++ "/stellar"))
            || includes (A ++ "/stellar") "/stellar/") in H.
    apply Bool.orb_false_iff in H. destruct H as [H1 H2].
    change (String c A ++ "/stellar/" ++ B) with (String c (A ++ "/stellar/" ++ B)).
    cbn [split_go].
    replace (String.prefix "/stellar/" (String c (A ++ "/stellar/" ++ B))) with false.
    + rewrite IH by exact H2. rewrite string_app_assoc. reflexivity.
    + replace (String c (A ++ "/stellar/" ++ B)) with (String c (A ++ "/stellar") ++ "/" ++ B)
        by (simpl; rewrite string_app_assoc; reflexivity).
      rewrite prefix_app_long; [exact (eq_sym H1)|].
      simpl. rewrite string_length_app. simpl. lia.
Qed.

Lemma js_split_public_url url path :
  includes (url ++ "/storage/v1/object/public/stellar") "/stellar/" = false ->
  includes path "/stellar/" = false ->
  js_split (getPublicUrl url "stellar" path) "/stellar/"
  = [url ++ "/storage/v1/object/public"; path].
Proof.
  intros H1 H2. unfold js_split.
  replace (getPublicUrl url "stellar" path)
    with ((url ++ "/storage/v1/object/public") ++ "/stellar/" ++ path)
    by (unfold getPublicUrl; rewrite string_app_assoc; reflexivity).
  rewrite split_go_stellar.
  - rewrite split_go_plain by (discriminate || exact H2). reflexivity.
  - rewrite string_app_assoc. exact H1.
Qed.

(** Uploading a badge and then deleting it through its public URL restores
    the table and the object store. *)
Theorem upload_then_delete_restores url userId s f :
  String.eqb (trim (p_badgeName s)) "" = false ->
  p_svgFile s = Some f ->
  storage_down (p_world s) = false ->
  key_exists ("stellar/badges/" ++ userId ++ "_" ++ str_N (now (p_world s)) ++ ".svg")
             (store (p_world s)) = false ->
  p_db_down s = false ->
  Forall (fun r => cb_id r <> str_N (p_next_id s)) (p_table s) ->
  includes (url ++ "/storage/v1/object/public/stellar") "/stellar/" = false ->
  includes ("badges/" ++ userId ++ "_" ++ str_N (now (p_world s)) ++ ".svg") "/stellar/" = false ->
  let path := "badges/" ++ userId ++ "_" ++ str_N (now (p_world s)) ++ ".svg" in
  let s1 := snd (handleUploadBadge url userId s) in
  let s2 := snd (handleDeleteBadge userId (str_N (p_next_id s)) (getPublicUrl url "stellar" path) true s1) in
  fst (handleDeleteBadge userId (str_N (p_next_id s)) (getPublicUrl url "stellar" path) true s1) = Ok tt
  /\ p_table s2 = p_table s
  /\ store (p_world s2) = store (p_world s)
  /\ p_success s2 = Some "Badge deleted successfully"
  /\ p_customBadges s2 = List.rev (filter (fun r => String.eqb (cb_user_id r) userId) (p_table s)).
Proof.
  intros Hn Hf Hup Hkey Hdb Hfresh Hurl Hpath path s1 s2. subst s2 s1.
  rewrite (upload_badge_state url userId s f Hn Hf Hup Hkey Hdb). cbn [snd].
  unfold handleDeleteBadge. subst path.
  rewrite (js_split_public_url _ _ Hurl Hpath).
  assert (Ht : filter (fun r => negb (String.eqb (cb_id r) (str_N (p_next_id s))))
                 (p_table s ++ [mkCustom (str_N (p_next_id s)) userId (trim (p_badgeName s))
                   (getPublicUrl url "stellar" ("badges/" ++ userId ++ "_" ++ str_N (now (p_world s)) ++ ".svg"))])%list
               = p_table s).
  { rewrite filter_app. simpl. rewrite String.eqb_refl. simpl. rewrite app_nil_r.
    induction Hfresh as [|r t Hr _ IH]; [reflexivity|]. simpl.
    rewrite (proj2 (String.eqb_neq _ _) Hr). simpl. rewrite IH. reflexivity. }
  run_profile. change (Nat.ltb 1 (length [_; _])) with true.
  cbv beta iota zeta.
  cbn [p_world p_table p_next_id p_db_down p_badgeName p_svgFile p_error p_success p_customBadges
       now rands logs rpc polls store storage_down badges fst snd negb andb orb fold_right nth].
  rewrite Ht. split; [reflexivity|]. split; [reflexivity|]. split; [|split; reflexivity].
  unfold remove_key. cbn [filter fst]. simpl. rewrite String.eqb_refl. cbn [negb].
  exact (remove_key_absent _ _ Hkey).
Qed.

(** Upload failures: a store outage or an existing key ([Conflict], two
    uploads in one millisecond) insert no row and keep the form; a
    database failure after the upload leaves the uploaded object in the
    store without a row. *)
Theorem upload_badge_failures url userId s f :
  String.eqb (trim (p_badgeName s)) "" = false ->
  p_svgFile s = Some f ->
  let path := "badges/" ++ userId ++ "_" ++ str_N (now (p_world s)) ++ ".svg" in
  let s' := snd (handleUploadBadge url userId s) in
  (storage_down (p_world s) = true ->
   p_error s' = Some "TransientStorageError" /\ p_table s' = p_table s
   /\ store (p_world s') = store (p_world s) /\ p_svgFile s' = Some f)
  /\ (storage_down (p_world s) = false -> key_exists ("stellar/" ++ path) (store (p_world s)) = true ->
      p_error s' = Some "Conflict" /\ p_table s' = p_table s
      /\ store (p_world s') = store (p_world s)
      /\ p_badgeName s' = p_badgeName s /\ p_svgFile s' = Some f)
  /\ (storage_down (p_world s) = false -> key_exists ("stellar/" ++ path) (store (p_world s)) = false ->
      p_db_down s = true ->
      p_error s' = Some "DatabaseError" /\ p_table s' = p_table s
      /\ store (p_world s') = ("stellar/" ++ path, f_content f) :: store (p_world s)
      /\ p_svgFile s' = Some f).
Proof.
  intros Hn Hf path s'. subst s' path.
  destruct s as [w table next down name file err succ cbs];
    destruct w as [now0 rands0 logs0 rpc0 polls0 store0 sdown0 badges0];
    cbn [p_world p_table p_next_id p_db_down p_badgeName p_svgFile now store storage_down] in *; subst.
  split; [|split].
  - intros ->. run_profile. rewrite Hn. simpl. repeat split; reflexivity.
  - intros -> Hkey. run_profile. rewrite Hn. simpl in Hkey |- *. rewrite Hkey. simpl.
    repeat split; reflexivity.
  - intros -> Hkey ->. run_profile. rewrite Hn. simpl in Hkey |- *. rewrite Hkey. simpl.
    rewrite (remove_key_absent _ _ Hkey). repeat split; reflexivity.
Qed.

Lemma trim_blank (n : string) :
  forallb js_space (list_ascii_of_string n) = true -> trim n = "".
Proof.
  intro H. unfold trim. replace (trim_start n) with "" by
    (induction n as [|c n IH]; [reflexivity|];
     simpl in H; apply andb_prop in H; destruct H as [H1 H2]; simpl; rewrite H1; exact (IH H2)).
  reflexivity.
Qed.

(** A blank badge name (white space only) or a missing file only sets the
    error message: nothing is uploaded or inserted. *)
Theorem upload_badge_validation url userId s :
  (forallb js_space (list_ascii_of_string (p_badgeName s)) = true ->
   handleUploadBadge url userId s
   = (Ok tt, mkProfile (p_world s) (p_table s) (p_next_id s) (p_db_down s) (p_badgeName s)
                       (p_svgFile s) (Some "Please enter a badge name") (p_success s)
                       (p_customBadges s)))
  /\ (String.eqb (trim (p_badgeName s)) "" = false -> p_svgFile s = None ->
      handleUploadBadge url userId s
      = (Ok tt, mkProfile (p_world s) (p_table s) (p_next_id s) (p_db_down s) (p_badgeName s)
                          (p_svgFile s) (Some "Please select an SVG file") (p_success s)
                          (p_customBadges s))).
Proof.
  split.
  - intro H. unfold handleUploadBadge, pbind, pget. rewrite (trim_blank _ H). reflexivity.
  - intros H Hf. unfold handleUploadBadge, pbind, pget. rewrite H.
    destruct s; cbn in Hf |- *; subst; reflexivity.
Qed.

Ltac split_branches :=
  repeat (cbn [p_world p_table p_next_id p_db_down p_badgeName p_svgFile p_error p_success
               p_customBadges now rands logs rpc polls store storage_down badges fst snd negb andb orb];
          match goal with
          | |- context [if ?b then _ else _] => destruct b
          | |- context [match ?x with Some _ => _ | None => _ end] => destruct x
          end).

Lemma upload_svg_frame url userId s :
  p_svgFile (snd (handleUploadBadge url userId s)) = p_svgFile s
  \/ p_svgFile (snd (handleUploadBadge url userId s)) = None.
Proof.
  destruct s as [w table next down name file err succ cbs];
    destruct w as [now0 rands0 logs0 rpc0 polls0 store0 sdown0 badges0].
  run_profile. split_branches; auto.
Qed.

Lemma delete_svg_frame userId badgeId svgUrl confirmed s :
  p_svgFile (snd (handleDeleteBadge userId badgeId svgUrl confirmed s)) = p_svgFile s.
Proof.
  destruct s as [w table next down name file err succ cbs];
    destruct w as [now0 rands0 logs0 rpc0 polls0 store0 sdown0 badges0].
  run_profile. split_branches; reflexivity.
Qed.

Lemma fetch_svg_frame userId s :
  p_svgFile (snd (fetchCustomBadges userId s)) = p_svgFile s.
Proof.
  destruct s as [w table next down name file err succ cbs];
    destruct w as [now0 rands0 logs0 rpc0 polls0 store0 sdown0 badges0].
  run_profile. split_branches; reflexivity.
Qed.

(** Every file the form holds passed the checks of [handleFileChange]: its
    type contains ["svg"] and it is at most 1 MiB; no handler breaks
    this. *)
Theorem selected_file_checked file url userId badgeId svgUrl confirmed s :
  (forall f, p_svgFile s = Some f -> includes (f_type f) "svg" = true /\ (f_size f <= 1024 * 1024)%N) ->
  let ok (s' : profile) := forall f, p_svgFile s' = Some f ->
                             includes (f_type f) "svg" = true /\ (f_size f <= 1024 * 1024)%N in
  ok (snd (handleFileChange file s))
  /\ ok (snd (handleUploadBadge url userId s))
  /\ ok (snd (handleDeleteBadge userId badgeId svgUrl confirmed s))
  /\ ok (snd (fetchCustomBadges userId s)).
Proof.
  intros H ok. split; [|split; [|split]]; unfold ok.
  - destruct file as [f|]; [|exact H]. unfold handleFileChange.
    destruct (includes (f_type f) "svg") eqn:Et; [|exact H].
    destruct (1024 * 1024 <? f_size f)%N eqn:Es; [exact H|].
    intros f' Hf'. cbv in Hf'. injection Hf' as <-. split; [exact Et|].
    apply N.ltb_ge in Es. exact Es.
  - intros f Hf. destruct (upload_svg_frame url userId s) as [E|E]; rewrite E in Hf;
      [exact (H f Hf)|discriminate].
  - intros f Hf. rewrite delete_svg_frame in Hf. exact (H f Hf).
  - intros f Hf. rewrite fetch_svg_frame in Hf. exact (H f Hf).
Qed.

(** Deleting: an unconfirmed delete changes nothing; a URL without
    ["/stellar/"] leaves the object store alone; a database failure after
    the object removal keeps the row while its file is gone. *)
Theorem delete_badge_paths userId badgeId svgUrl s :
  handleDeleteBadge userId badgeId svgUrl false s = (Ok tt, s)
  /\ (includes svgUrl "/stellar/" = false ->
      store (p_world (snd (handleDeleteBadge userId badgeId svgUrl true s))) = store (p_world s))
  /\ (forall A B, svgUrl = A ++ "/stellar/" ++ B ->
      includes (A ++ "/stellar") "/stellar/" = false -> includes B "/stellar/" = false ->
      storage_down (p_world s) = false -> p_db_down s = true ->
      let s' := snd (handleDeleteBadge userId badgeId svgUrl true s) in
      p_error s' = Some "DatabaseError" /\ p_table s' = p_table s
      /\ store (p_world s') = remove_key ("stellar/" ++ B) (store (p_world s))).
Proof.
  split; [reflexivity|]. split.
  - intro H. unfold handleDeleteBadge, js_split.
    rewrite (split_go_plain "/stellar/" svgUrl "" ltac:(discriminate) H).
    change (Nat.ltb 1 (length [_])) with false.
    destruct s as [w table next down name file err succ cbs];
      destruct w as [now0 rands0 logs0 rpc0 polls0 store0 sdown0 badges0].
    run_profile. split_branches; reflexivity.
  - intros A B -> HA HB Hup Hdb s'. subst s'. unfold handleDeleteBadge, js_split.
    rewrite (split_go_stellar _ _ _ HA), (split_go_plain "/stellar/" B "" ltac:(discriminate) HB).
    change (Nat.ltb 1 (length [_; _])) with true.
    destruct s as [w table next down name file err succ cbs];
      destruct w as [now0 rands0 logs0 rpc0 polls0 store0 sdown0 badges0].
    cbn [p_world p_db_down storage_down] in Hup, Hdb. subst.
    run_profile. repeat split; reflexivity.
Qed.

Lemma wait_loop_shape srv n h st w :
  exists k, k <= n
    /\ snd (wait_loop srv n h st w)
       = mkWorld (now w + 1000 * N.of_nat k) (rands w) (logs w)
                 (repeat "getTransaction" k ++ rpc w)%list (polls w + k)
                 (store w) (storage_down w) (badges w).
Proof.
  revert st w; induction n as [|n IH]; intros st w.
  - exists 0. split; [lia|]. destruct w; cbn. rewrite N.add_0_r, Nat.add_0_r. reflexivity.
  - cbn [wait_loop]. destruct (txstatus_eqb st PENDING).
    + cbv beta iota zeta delta [bind sleep get_transaction].
      cbn [polls now rands logs rpc store storage_down badges].
      destruct (srv_getTransaction srv (polls w)) as [g|e].
      * destruct (IH (get_status g)
                    (mkWorld (now w + 1000) (rands w) (logs w) ("getTransaction" :: rpc w)
                             (S (polls w)) (store w) (storage_down w) (badges w)))
          as (k & Hk & Hw).
        exists (S k). split; [lia|]. rewrite Hw. cbn [now rands logs rpc polls store storage_down badges].
        f_equal.
        -- rewrite Nat2N.inj_succ. lia.
        -- clear. generalize (rpc w) as l. induction k as [|k IHk]; intros l; [reflexivity|].
           simpl. f_equal. apply IHk.
        -- lia.
      * exists 1. split; [lia|]. cbn. f_equal. lia.
    + exists 0. split; [lia|]. destruct w; cbn. rewrite N.add_0_r, Nat.add_0_r. reflexivity.
Qed.

Ltac finish_bound :=
  cbn [now rands logs rpc polls store storage_down badges fst snd Datatypes.length];
  rewrite ?length_app, ?repeat_length; cbn [Datatypes.length]; lia.

(** A signed mint makes at most 34 ledger RPC calls, polls at most 31
    times and waits at most 30 s, whatever the server answers. *)
Theorem signed_mint_bounded srv bc receiver testId uri kp w :
  let w' := snd (mintBadgeNFT srv bc receiver testId uri (Some kp) w) in
  length (rpc w') <= length (rpc w) + 34
  /\ (now w <= now w' <= now w + 30000)%N
  /\ polls w' <= polls w + 31.
Proof.
  intro w'. subst w'. unfold mintBadgeNFT, submit_and_confirm.
  destruct bc as [c|]; [|run_ledger; finish_bound].
  run_ledger.
  destruct (srv_getAccount srv kp) as [[]|e]; cbn [rpc]; [|finish_bound].
  destruct (srv_simulate srv c "mint" [receiver; uri]) as [[x|e1]|e2]; cbn [rpc]; try finish_bound.
  destruct (srv_send srv c "mint" [receiver; uri]) as [sr|e]; cbn [rpc]; [|finish_bound].
  destruct (txstatus_eqb (send_status sr) ERROR); [finish_bound|].
  cbv beta iota.
  match goal with |- context [wait_loop ?s ?n ?h ?st ?w1] =>
    destruct (wait_loop_shape s n h st w1) as (k & Hk & Hw);
    destruct (wait_loop s n h st w1) as [r w2]; cbn [snd] in Hw; subst w2
  end.
  unfold maxAttempts in Hk.
  destruct r as [st|e]; [|finish_bound].
  destruct (negb (txstatus_eqb st SUCCESS)); cbv beta iota; [finish_bound|].
  run_ledger.
  destruct (srv_getTransaction _ _) as [g|e]; [|finish_bound].
  unfold extract_token_id, scValToNative. run_ledger.
  destruct (txstatus_eqb (get_status g) SUCCESS && get_resultMetaXdr g); cbv beta iota;
    [destruct (get_returnValue g) as [[v|]|]|]; finish_bound.
Qed.

(** A signed registration makes at most 33 ledger RPC calls, polls at most
    30 times and waits at most 30 s, whatever the server answers. *)
Theorem signed_register_bounded srv registry testId creator cid kp w :
  let w' := snd (registerTestOnChain_signed srv registry testId creator cid (Some kp) w) in
  length (rpc w') <= length (rpc w) + 33
  /\ (now w <= now w' <= now w + 30000)%N
  /\ polls w' <= polls w + 30.
Proof.
  intro w'. subst w'. unfold registerTestOnChain_signed, submit_and_confirm.
  run_ledger.
  destruct (srv_getAccount srv kp) as [[]|e]; cbn [rpc]; [|finish_bound].
  destruct (srv_simulate srv registry "register_test" [testId; creator; cid]) as [[x|e1]|e2];
    cbn [rpc]; try finish_bound.
  destruct (srv_send srv registry "register_test" [testId; creator; cid]) as [sr|e];
    cbn [rpc]; [|finish_bound].
  destruct (txstatus_eqb (send_status sr) ERROR); [finish_bound|].
  cbv beta iota.
  match goal with |- context [wait_loop ?s ?n ?h ?st ?w1] =>
    destruct (wait_loop_shape s n h st w1) as (k & Hk & Hw);
    destruct (wait_loop s n h st w1) as [r w2]; cbn [snd] in Hw; subst w2
  end.
  unfold maxAttempts in Hk.
  destruct r as [st|e]; [|finish_bound].
  destruct (negb (txstatus_eqb st SUCCESS)); cbv beta iota; run_ledger; finish_bound.
Qed.

(** ** Witnesses of the properties with hypotheses *)

Definition example_world : world := mkWorld 5 ["k"; "q"] [] [] 0 [] false [].

Definition example_server : server :=
  mkServer (fun _ => Ok tt) (fun _ _ _ => Ok (SimOk None))
           (fun _ _ _ => Ok (mkSend PENDING "h1" ""))
           (fun _ => Ok (mkGet SUCCESS true (Some (ScVal (JNum 7))))).

Definition example_svg : file_obj := mkFile "image/svg+xml" 100 (JStr "<svg/>").

Definition example_profile : profile :=
  mkProfile example_world [] 1 false " Gold " (Some example_svg) None None [].

Lemma simple_register_result_witness :
  rands example_world = "k" :: ["q"]
  /\ fst (registerTestOnChain_simple "testnet" (Some "CREG") "t1" "GA" "cid" example_world)
     = Ok (true, "sim_5_k").
Proof.
  split; [reflexivity|].
  rewrite (simple_register_result "testnet" (Some "CREG") "t1" "GA" "cid" example_world "k" ["q"] eq_refl).
  reflexivity.
Defined.

Lemma simple_mint_result_witness :
  rands example_world = "k" :: "q" :: []
  /\ fst (mintBadgeNFT_simple "testnet" None "GR" "t1" "u" example_world)
     = Ok (true, "sim_5_k", "NFT_5_q").
Proof.
  split; [reflexivity|].
  rewrite (simple_mint_result "testnet" None "GR" "t1" "u" example_world "k" "q" [] eq_refl).
  reflexivity.
Defined.

Lemma signed_mint_confirmed_witness :
  srv_getAccount example_server "K" = Ok tt
  /\ srv_simulate example_server "C" "mint" ["GR"; "u"] = Ok (SimOk None)
  /\ srv_send example_server "C" "mint" ["GR"; "u"] = Ok (mkSend PENDING "h1" "")
  /\ (forall i, srv_getTransaction example_server i
                = Ok (mkGet SUCCESS true (Some (ScVal (JNum 7)))))
  /\ fst (mintBadgeNFT example_server (Some "C") "GR" "t1" "u" (Some "K") example_world)
     = Ok (mkMint true "h1" (JNum 7) "u").
Proof.
  refine (conj eq_refl (conj eq_refl (conj eq_refl (conj (fun _ => eq_refl) _)))).
  exact (proj1 (signed_mint_confirmed example_server "C" "K" "GR" "t1" "u" None "h1" ""
                  true (Some (ScVal (JNum 7))) example_world
                  eq_refl eq_refl eq_refl (fun _ => eq_refl))).
Defined.

Lemma signed_register_confirmed_witness :
  srv_getAccount example_server "K" = Ok tt
  /\ srv_simulate example_server "REG" "register_test" ["t1"; "GA"; "cid"] = Ok (SimOk None)
  /\ srv_send example_server "REG" "register_test" ["t1"; "GA"; "cid"]
     = Ok (mkSend PENDING "h1" "")
  /\ srv_getTransaction example_server (polls example_world)
     = Ok (mkGet SUCCESS true (Some (ScVal (JNum 7))))
  /\ get_status (mkGet SUCCESS true (Some (ScVal (JNum 7)))) = SUCCESS
  /\ fst (registerTestOnChain_signed example_server "REG" "t1" "GA" "cid" (Some "K") example_world)
     = Ok (mkReg true "h1" (test_metadata (JStr "t1") (JStr "GA") (JStr "cid") 1005)).
Proof.
  refine (conj eq_refl (conj eq_refl (conj eq_refl (conj eq_refl (conj eq_refl _))))).
  rewrite (signed_register_confirmed example_server "REG" "K" "t1" "GA" "cid" None "h1" ""
             (mkGet SUCCESS true (Some (ScVal (JNum 7)))) example_world
             eq_refl eq_refl eq_refl eq_refl eq_refl).
  reflexivity.
Defined.

Lemma upload_badge_success_witness :
  String.eqb (trim (p_badgeName example_profile)) "" = false
  /\ p_svgFile example_profile = Some example_svg
  /\ storage_down (p_world example_profile) = false
  /\ key_exists ("stellar/badges/" ++ "u1" ++ "_" ++ str_N (now (p_world example_profile)) ++ ".svg")
                (store (p_world example_profile)) = false
  /\ p_db_down example_profile = false
  /\ p_table (snd (handleUploadBadge "https://x.supabase.co" "u1" example_profile))
     = [mkCustom "1" "u1" "Gold"
          "https://x.supabase.co/storage/v1/object/public/stellar/badges/u1_5.svg"].
Proof.
  refine (conj eq_refl (conj eq_refl (conj eq_refl (conj eq_refl (conj eq_refl _))))).
  exact (proj1 (proj2 (upload_badge_success "https://x.supabase.co" "u1" example_profile
                         example_svg eq_refl eq_refl eq_refl eq_refl eq_refl))).
Defined.

Lemma upload_badge_failures_witness :
  let s := mkProfile (mkWorld 5 [] [] [] 0 [("stellar/badges/u1_5.svg", JStr "old")] false [])
                     [] 1 false "Gold" (Some example_svg) None None [] in
  String.eqb (trim (p_badgeName s)) "" = false
  /\ p_svgFile s = Some example_svg
  /\ p_error (snd (handleUploadBadge "https://x.supabase.co" "u1" s)) = Some "Conflict".
Proof.
  intros s.
  refine (conj eq_refl (conj eq_refl _)).
  exact (proj1 (proj1 (proj2 (upload_badge_failures "https://x.supabase.co" "u1" s example_svg
                                eq_refl eq_refl)) eq_refl eq_refl)).
Defined.

Lemma upload_then_delete_restores_witness :
  String.eqb (trim (p_badgeName example_profile)) "" = false
  /\ p_svgFile example_profile = Some example_svg
  /\ storage_down (p_world example_profile) = false
  /\ key_exists ("stellar/badges/" ++ "u1" ++ "_" ++ str_N (now (p_world example_profile)) ++ ".svg")
                (store (p_world example_profile)) = false
  /\ p_db_down example_profile = false
  /\ Forall (fun r => cb_id r <> str_N (p_next_id example_profile)) (p_table example_profile)
  /\ includes ("https://x.supabase.co" ++ "/storage/v1/object/public/stellar") "/stellar/" = false
  /\ includes ("badges/" ++ "u1" ++ "_" ++ str_N (now (p_world example_profile)) ++ ".svg")
              "/stellar/" = false
  /\ store (p_world (snd (handleDeleteBadge "u1" "1"
        "https://x.supabase.co/storage/v1/object/public/stellar/badges/u1_5.svg" true
        (snd (handleUploadBadge "https://x.supabase.co" "u1" example_profile))))) = [].
Proof.
  refine (conj eq_refl (conj eq_refl (conj eq_refl (conj eq_refl (conj eq_refl
           (conj (Forall_nil _) (conj eq_refl (conj eq_refl _)))))))).
  exact (proj1 (proj2 (proj2 (upload_then_delete_restores "https://x.supabase.co" "u1"
                                example_profile example_svg eq_refl eq_refl eq_refl eq_refl
                                eq_refl (Forall_nil _) eq_refl eq_refl)))).
Defined.

Lemma selected_file_checked_witness :
  (forall f, p_svgFile example_profile = Some f ->
             includes (f_type f) "svg" = true /\ (f_size f <= 1024 * 1024)%N)
  /\ (forall f, p_svgFile (snd (handleFileChange (Some (mkFile "image/png" 10 JNull))
                                                 example_profile)) = Some f ->
                includes (f_type f) "svg" = true /\ (f_size f <= 1024 * 1024)%N).
Proof.
  assert (H : forall f, p_svgFile example_profile = Some f ->
                        includes (f_type f) "svg" = true /\ (f_size f <= 1024 * 1024)%N).
  { intros f Hf. simpl in Hf. injection Hf as <-. split; [reflexivity | simpl; lia]. }
  split; [exact H|].
  exact (proj1 (selected_file_checked (Some (mkFile "image/png" 10 JNull)) "https://x.supabase.co"
                  "u1" "1" "" true example_profile H)).
Defined.

Lemma metadata_uri_v1_retry_converges_witness :
  storage_down example_world = false
  /\ fst (generateBadgeMetadataUri "https://x.supabase.co" "t1" "GA" None None None example_world)
     = Ok "https://x.supabase.co/storage/v1/object/public/stellar/badge-metadata/t1_GA.json".
Proof.
  refine (conj eq_refl _).
  exact (proj1 (metadata_uri_v1_retry_converges "https://x.supabase.co" "t1" "GA" None None None
                  example_world eq_refl)).
Defined.
